(** * Face recognition demo (src/App.tsx): a shallow embedding

    The component [App] owns seven pieces of React state, three event
    handlers that suspend on promises ([loadModels], [handleImageUpload],
    [captureImage]) and two synchronous ones ([performFaceMatch],
    [resetCapture]).  Numbers are ECMAScript Numbers, that is IEEE 754
    binary64 values; they are modelled with the executable specification of
    floating-point arithmetic of the standard library ([SpecFloat]) at
    precision 53 and maximal exponent 1024.  [handleVideoPlay] (lines 52-64)
    sizes the overlay canvas and touches none of the state; it is left
    out. *)

From Stdlib Require Import ZArith List String Ascii Bool Lia.
From Stdlib Require Import SpecFloat DecimalString.
Import ListNotations.
Local Open Scope Z_scope.

(** ** ECMAScript Numbers *)

Module JSNumber.

Definition prec : Z := 53.
Definition emax : Z := 1024.

Definition number : Type := spec_float.

Definition NaN : number := S754_nan.
Definition pos_zero : number := S754_zero false.
Definition neg_zero : number := S754_zero true.
Definition pos_infinity : number := S754_infinity false.
Definition neg_infinity : number := S754_infinity true.

(** The Number value of an integer literal. *)
Definition of_Z (z : Z) : number := binary_normalize prec emax z 0 false.

(** The Number value of the decimal literal [m / 10^k], for [m] and [10^k]
    below [2^53]: both are exact, and the division rounds to nearest even,
    which is what the literal denotes. *)
Definition of_decimal (m : Z) (k : nat) : number :=
  SFdiv prec emax (of_Z m) (of_Z (10 ^ Z.of_nat k)).

Definition sub (x y : number) : number := SFsub prec emax x y.
Definition mul (x y : number) : number := SFmul prec emax x y.

(** [x < y] and [x >= y] of the language: false as soon as an operand is
    NaN. *)
Definition lt (x y : number) : bool := SFltb x y.
Definition ge (x y : number) : bool := SFleb y x.
Definition le (x y : number) : bool := SFleb x y.

Definition isNaN (x : number) : bool :=
  match x with S754_nan => true | _ => false end.

Definition is_pos_zero (x : number) : bool :=
  match x with S754_zero false => true | _ => false end.

Definition is_neg_zero (x : number) : bool :=
  match x with S754_zero true => true | _ => false end.

(** [Math.max(...args)] (ECMA-262, 21.3.2.24): NaN as soon as an argument
    is NaN, [+0] is larger than [-0]. *)
Fixpoint Math_max_from (highest : number) (args : list number) : number :=
  match args with
  | [] => highest
  | n :: rest =>
      if isNaN n then NaN
      else
        let highest := if is_pos_zero n && is_neg_zero highest then pos_zero else highest in
        let highest := if lt highest n then n else highest in
        Math_max_from highest rest
  end.

Definition Math_max (args : list number) : number :=
  Math_max_from neg_infinity args.

(** [Math.min(...args)] (ECMA-262, 21.3.2.25). *)
Fixpoint Math_min_from (lowest : number) (args : list number) : number :=
  match args with
  | [] => lowest
  | n :: rest =>
      if isNaN n then NaN
      else
        let lowest := if is_neg_zero n && is_pos_zero lowest then neg_zero else lowest in
        let lowest := if lt n lowest then n else lowest in
        Math_min_from lowest rest
  end.

Definition Math_min (args : list number) : number :=
  Math_min_from pos_infinity args.

Definition abs (x : number) : number := SFabs x.

(** *** [Number.prototype.toFixed] (ECMA-262, 21.1.3.3) *)

(** [10^21] is a Number: [5^21 < 2^53]. *)
Definition ten_pow_21 : number := of_Z (10 ^ 21).

(** The integer [n] for which [n / 10^f - m * 2^e] is as close to zero as
    possible, the larger [n] when there are two. *)
Definition nearest_scaled (m : positive) (e : Z) (f : nat) : Z :=
  let scaled := Zpos m * 10 ^ Z.of_nat f in
  if 0 <=? e then scaled * 2 ^ e
  else (2 * scaled + 2 ^ (- e)) / 2 ^ (1 - e).

Fixpoint zeros (n : nat) : string :=
  match n with
  | O => EmptyString
  | S n' => String "0" (zeros n')
  end.

Definition decimal_digits (n : Z) : string :=
  NilZero.string_of_uint (N.to_uint (Z.to_N n)).

(** Steps 11.b and 11.c: the digits of [n] with a point before the last
    [f] of them. *)
Definition fixed_notation (n : Z) (f : nat) : string :=
  let m := decimal_digits n in
  match f with
  | O => m
  | _ =>
      let k := String.length m in
      let m := if (k <=? f)%nat then (zeros (f + 1 - k) ++ m)%string else m in
      let k := String.length m in
      (substring 0 (k - f) m ++ "." ++ substring (k - f) f m)%string
  end.

Section ToFixed.

(** [Number::toString], which [toFixed] calls on values of magnitude
    [10^21] and more; it belongs to the language runtime. *)
Variable Number_toString : number -> string.

Definition toFixed (x : number) (fractionDigits : nat) : string :=
  match x with
  | S754_nan => "NaN"
  | S754_infinity false => "Infinity"
  | S754_infinity true => "-Infinity"
  | S754_zero _ => fixed_notation 0 fractionDigits
  | S754_finite s m e =>
      ((if s then "-" else "") ++
       (if ge (abs x) ten_pow_21 then Number_toString (abs x)
        else fixed_notation (nearest_scaled m e fractionDigits) fractionDigits))%string
  end.

End ToFixed.

End JSNumber.

Import JSNumber.
Local Open Scope string_scope.

(** ** Strings *)

Definition nl : string := String "010"%char EmptyString.

(** [s.includes(t)]: [t] occurs in [s].  String literals are UTF-8 here and
    UTF-16 in the source; for well-formed text the two notions of occurrence
    agree. *)
Fixpoint includes (s t : string) : bool :=
  prefix t s ||
  match s with
  | EmptyString => false
  | String _ s' => includes s' t
  end.

(** Truthiness of a [string | null] value: [null] and the empty string are
    falsy. *)
Definition truthy (v : option string) : bool :=
  match v with
  | Some (String _ _) => true
  | _ => false
  end.

(** ** The component's data *)

Definition Error : Type := string.

Inductive settled (A : Type) : Type :=
| Fulfilled (value : A)
| Rejected (reason : Error).
Arguments Fulfilled {A} value.
Arguments Rejected {A} reason.

(** A descriptor.  The component never reads its elements: it stores the
    array and hands it to [faceapi.euclideanDistance]. *)
Definition Float32Array : Type := list number.

(** What [detectSingleFace(...).withFaceLandmarks().withFaceDescriptor()]
    resolves to when a face is found; [undefined] is [None]. *)
Record FaceDetection : Type := { descriptor : Float32Array }.

Record File : Type := { file_name : string }.
Record MediaStream : Type := { stream_id : string }.
Record HTMLVideoElement : Type := { videoWidth : N; videoHeight : N }.
Record HTMLCanvasElement : Type := { canvas_width : N; canvas_height : N }.

(** The seven [useState] cells of [App] (lines 9-15). *)
Record State : Type := {
  modelsLoaded : bool;
  referenceImage : option string;
  referenceDescriptor : option Float32Array;
  matchResult : string;
  capturedImage : option string;
  capturedDescriptor : option Float32Array;
  isProcessing : bool
}.

Definition initial_state : State := {|
  modelsLoaded := false;
  referenceImage := None;
  referenceDescriptor := None;
  matchResult := "";
  capturedImage := None;
  capturedDescriptor := None;
  isProcessing := false
|}.

(** The effects a handler performs between two suspension points. *)
Inductive action : Type :=
| setModelsLoaded (v : bool)
| setReferenceImage (v : option string)
| setReferenceDescriptor (v : option Float32Array)
| setMatchResult (v : string)
| setCapturedImage (v : option string)
| setCapturedDescriptor (v : option Float32Array)
| setIsProcessing (v : bool)
| console_log (msg : string)
| console_error (msg : string) (err : option Error)
| revokeObjectURL (url : string)
| set_srcObject (stream : MediaStream).

Definition set_state (a : action) (s : State) : State :=
  match a with
  | setModelsLoaded v =>
      {| modelsLoaded := v; referenceImage := referenceImage s;
         referenceDescriptor := referenceDescriptor s; matchResult := matchResult s;
         capturedImage := capturedImage s; capturedDescriptor := capturedDescriptor s;
         isProcessing := isProcessing s |}
  | setReferenceImage v =>
      {| modelsLoaded := modelsLoaded s; referenceImage := v;
         referenceDescriptor := referenceDescriptor s; matchResult := matchResult s;
         capturedImage := capturedImage s; capturedDescriptor := capturedDescriptor s;
         isProcessing := isProcessing s |}
  | setReferenceDescriptor v =>
      {| modelsLoaded := modelsLoaded s; referenceImage := referenceImage s;
         referenceDescriptor := v; matchResult := matchResult s;
         capturedImage := capturedImage s; capturedDescriptor := capturedDescriptor s;
         isProcessing := isProcessing s |}
  | setMatchResult v =>
      {| modelsLoaded := modelsLoaded s; referenceImage := referenceImage s;
         referenceDescriptor := referenceDescriptor s; matchResult := v;
         capturedImage := capturedImage s; capturedDescriptor := capturedDescriptor s;
         isProcessing := isProcessing s |}
  | setCapturedImage v =>
      {| modelsLoaded := modelsLoaded s; referenceImage := referenceImage s;
         referenceDescriptor := referenceDescriptor s; matchResult := matchResult s;
         capturedImage := v; capturedDescriptor := capturedDescriptor s;
         isProcessing := isProcessing s |}
  | setCapturedDescriptor v =>
      {| modelsLoaded := modelsLoaded s; referenceImage := referenceImage s;
         referenceDescriptor := referenceDescriptor s; matchResult := matchResult s;
         capturedImage := capturedImage s; capturedDescriptor := v;
         isProcessing := isProcessing s |}
  | setIsProcessing v =>
      {| modelsLoaded := modelsLoaded s; referenceImage := referenceImage s;
         referenceDescriptor := referenceDescriptor s; matchResult := matchResult s;
         capturedImage := capturedImage s; capturedDescriptor := capturedDescriptor s;
         isProcessing := v |}
  | console_log _ | console_error _ _ | revokeObjectURL _ | set_srcObject _ => s
  end.

(** ** Handler bodies

    An [async] function is a tree: effects, then either an end (normal or
    by an exception) or a suspension on a promise with the rest of the body
    as continuation.  The promise made at lines 77 and 121 only wires
    [onload] to [resolve], so it can be fulfilled and never rejected. *)
Inductive Async (A : Type) : Type :=
| Return (a : A)
| Throw (e : Error)
| Do (a : action) (k : Async A)
| AwaitImageLoad (src : string) (k : Async A)
| AwaitDetection (img : string) (k : settled (option FaceDetection) -> Async A)
| AwaitModels (k : settled unit -> Async A)
| AwaitUserMedia (k : settled MediaStream -> Async A).
Arguments Return {A} a.
Arguments Throw {A} e.
Arguments Do {A} a k.
Arguments AwaitImageLoad {A} src k.
Arguments AwaitDetection {A} img k.
Arguments AwaitModels {A} k.
Arguments AwaitUserMedia {A} k.

Fixpoint bind {A B : Type} (m : Async A) (f : A -> Async B) : Async B :=
  match m with
  | Return a => f a
  | Throw e => Throw e
  | Do a k => Do a (bind k f)
  | AwaitImageLoad src k => AwaitImageLoad src (bind k f)
  | AwaitDetection img k => AwaitDetection img (fun r => bind (k r) f)
  | AwaitModels k => AwaitModels (fun r => bind (k r) f)
  | AwaitUserMedia k => AwaitUserMedia (fun r => bind (k r) f)
  end.

(** [try { m } catch (error) { h error }] *)
Fixpoint try_catch {A : Type} (m : Async A) (h : Error -> Async A) : Async A :=
  match m with
  | Return a => Return a
  | Throw e => h e
  | Do a k => Do a (try_catch k h)
  | AwaitImageLoad src k => AwaitImageLoad src (try_catch k h)
  | AwaitDetection img k => AwaitDetection img (fun r => try_catch (k r) h)
  | AwaitModels k => AwaitModels (fun r => try_catch (k r) h)
  | AwaitUserMedia k => AwaitUserMedia (fun r => try_catch (k r) h)
  end.

(** [try { m } finally { fin }]: [fin] runs on both ways out, and the
    exception, if any, goes on after it. *)
Fixpoint try_finally {A : Type} (m : Async A) (fin : Async unit) : Async A :=
  match m with
  | Return a => bind fin (fun _ => Return a)
  | Throw e => bind fin (fun _ => Throw e)
  | Do a k => Do a (try_finally k fin)
  | AwaitImageLoad src k => AwaitImageLoad src (try_finally k fin)
  | AwaitDetection img k => AwaitDetection img (fun r => try_finally (k r) fin)
  | AwaitModels k => AwaitModels (fun r => try_finally (k r) fin)
  | AwaitUserMedia k => AwaitUserMedia (fun r => try_finally (k r) fin)
  end.

(** [await p]: the value of a fulfilled promise, the reason of a rejected
    one thrown. *)
Definition resume {A : Type} (r : settled A) : Async A :=
  match r with
  | Fulfilled v => Return v
  | Rejected e => Throw e
  end.

Definition perform (a : action) : Async unit := Do a (Return tt).
Definition await_image_load (src : string) : Async unit := AwaitImageLoad src (Return tt).
Definition await_detection (img : string) : Async (option FaceDetection) :=
  AwaitDetection img resume.
Definition await_models : Async unit := AwaitModels resume.
Definition await_user_media : Async MediaStream := AwaitUserMedia resume.

Declare Scope async_scope.
Delimit Scope async_scope with async.
Bind Scope async_scope with Async.
Notation "x <- m ;; k" := (bind m (fun x => k))
  (at level 61, m at next level, right associativity) : async_scope.
Notation "m ;; k" := (bind m (fun _ => k))
  (at level 61, right associativity) : async_scope.
Local Open Scope async_scope.

(** ** The component *)

(** What the browser answers to the synchronous calls of [captureImage]:
    [canvas.getContext('2d')] (null is [false]) and
    [canvas.toDataURL('image/jpeg')]. *)
Record CaptureDom : Type := {
  getContext_2d : bool;
  toDataURL : string
}.

(** The [ref] objects of lines 6-7; [current] is null before the mount. *)
Record Refs : Type := {
  videoRef : option HTMLVideoElement;
  canvasRef : option HTMLCanvasElement
}.

(** Line 155. *)
Definition similarity (distance : number) : number :=
  Math_max [of_Z 0; Math_min [of_Z 100; mul (sub (of_Z 1) distance) (of_Z 100)]].

(** Line 156. *)
Definition matchThreshold : number := of_decimal 5 1.

Definition match_found : string := "✅ Face Match Found!".
Definition no_match_found : string := "❌ No Match Found".
Definition check_mark : string := "✅".

(** What the component takes from outside: [faceapi.euclideanDistance] of
    the library, applied to two descriptors of the one dimension the
    recognition net produces, and [Number::toString] of the language. *)
Class Runtime : Type := {
  euclideanDistance : Float32Array -> Float32Array -> number;
  Number_toString : number -> string
}.

Section App.

Context {runtime : Runtime}.

(** Lines 18-32. *)
Definition loadModels : Async unit :=
  try_catch
    (await_models ;;
     perform (setModelsLoaded true) ;;
     perform (console_log "Models loaded successfully"))
    (fun error => perform (console_error "Error loading models:" (Some error))).

(** Lines 38-49. *)
Definition startVideo (refs : Refs) : Async unit :=
  match videoRef refs with
  | None => Return tt
  | Some _ =>
      try_catch
        (stream <- await_user_media ;;
         perform (set_srcObject stream))
        (fun err => perform (console_error "Error accessing webcam:" (Some err)))
  end.

(** Lines 66-101.  [file] is [event.target.files?.[0]], [imageUrl] what
    [URL.createObjectURL] returns for it; [s] is the state the handler
    closes over. *)
Definition handleImageUpload (s : State) (file : option File) (imageUrl : string)
  : Async unit :=
  match file with
  | None => Return tt
  | Some _ =>
      if negb (modelsLoaded s) then Return tt
      else
        try_catch
          (perform (setReferenceImage (Some imageUrl)) ;;
           await_image_load imageUrl ;;
           detections <- await_detection imageUrl ;;
           match detections with
           | Some d =>
               perform (setReferenceDescriptor (Some (descriptor d))) ;;
               perform (console_log "Reference face descriptor extracted")
           | None =>
               perform (console_error "No face detected in the reference image" None) ;;
               perform (setMatchResult "No face detected in the uploaded image")
           end ;;
           perform (revokeObjectURL imageUrl))
          (fun error =>
             perform (console_error "Error processing reference image:" (Some error)) ;;
             perform (setMatchResult "Error processing the image"))
  end.

(** Lines 103-146. *)
Definition captureImage (s : State) (refs : Refs) (dom : CaptureDom) : Async unit :=
  match videoRef refs, canvasRef refs with
  | Some _, Some _ =>
      if negb (modelsLoaded s) then Return tt
      else
        perform (setIsProcessing true) ;;
        try_finally
          (try_catch
             (if negb (getContext_2d dom) then Throw "Could not get canvas context"
              else
                let src := toDataURL dom in
                await_image_load src ;;
                perform (setCapturedImage (Some src)) ;;
                detection <- await_detection src ;;
                match detection with
                | Some d =>
                    perform (setCapturedDescriptor (Some (descriptor d))) ;;
                    perform (console_log "Captured face descriptor extracted")
                | None =>
                    perform (console_error "No face detected in captured image" None) ;;
                    perform (setMatchResult "No face detected in captured image")
                end)
             (fun error =>
                perform (console_error "Error processing captured image:" (Some error)) ;;
                perform (setMatchResult "Error processing the captured image")))
          (perform (setIsProcessing false))
  | _, _ => Return tt
  end.

(** Lines 148-162. *)
Definition performFaceMatch (s : State) : Async unit :=
  match referenceDescriptor s, capturedDescriptor s with
  | Some reference, Some captured =>
      let distance := euclideanDistance reference captured in
      perform (setMatchResult
        ("Match Result: " ++ toFixed Number_toString (similarity distance) 2 ++ "% similar" ++ nl ++
         (if lt distance matchThreshold then match_found else no_match_found)))
  | _, _ => perform (setMatchResult "Please ensure both images have detected faces")
  end.

(** Lines 164-170. *)
Definition resetCapture : Async unit :=
  perform (setCapturedImage None) ;;
  perform (setReferenceImage None) ;;
  perform (setReferenceDescriptor None) ;;
  perform (setCapturedDescriptor None) ;;
  perform (setMatchResult "").

(** *** What is rendered (lines 172-277) *)

Record View : Type := {
  capture_disabled : bool;             (* line 193 *)
  compare_rendered : bool;             (* line 200 *)
  compare_disabled : bool;             (* line 203 *)
  reset_rendered : bool;               (* line 210 *)
  reference_preview : option string;   (* line 222 *)
  captured_preview : option string;    (* line 233 *)
  result_shown : bool;                 (* line 261 *)
  result_green : bool;                 (* line 263 *)
  loading_notice : bool                (* line 269 *)
}.

Definition is_null {A : Type} (v : option A) : bool :=
  match v with
  | None => true
  | Some _ => false
  end.

Definition render (s : State) : View := {|
  capture_disabled := isProcessing s;
  compare_rendered := truthy (referenceImage s) && truthy (capturedImage s);
  compare_disabled :=
    isProcessing s || is_null (referenceDescriptor s) || is_null (capturedDescriptor s);
  reset_rendered := truthy (referenceImage s) || truthy (capturedImage s);
  reference_preview := if truthy (referenceImage s) then referenceImage s else None;
  captured_preview := if truthy (capturedImage s) then capturedImage s else None;
  result_shown := negb (String.eqb (matchResult s) "");
  result_green := includes (matchResult s) check_mark;
  loading_notice := negb (modelsLoaded s)
|}.

(** *** The event loop *)

Inductive origin : Type :=
| from_loadModels
| from_startVideo
| from_handleImageUpload
| from_captureImage
| from_performFaceMatch
| from_resetCapture.

(** A suspended handler: what is left of its body, which begins with the
    promise it waits for. *)
Record Task : Type := { task_origin : origin; task_body : Async unit }.

Inductive console_entry : Type :=
| logged (msg : string)
| errored (msg : string) (err : option Error).

Record World : Type := {
  state : State;
  refs : Refs;
  console : list console_entry;
  revoked : list string;
  srcObject : option MediaStream;
  inflight : list Task;
  uncaught : list Error
}.

Definition apply_action (a : action) (w : World) : World :=
  {| state := set_state a (state w);
     refs := refs w;
     console :=
       match a with
       | console_log msg => console w ++ [logged msg]
       | console_error msg err => console w ++ [errored msg err]
       | _ => console w
       end;
     revoked :=
       match a with
       | revokeObjectURL url => revoked w ++ [url]
       | _ => revoked w
       end;
     srcObject :=
       match a with
       | set_srcObject stream => Some stream
       | _ => srcObject w
       end;
     inflight := inflight w;
     uncaught := uncaught w |}.

Definition suspend (t : Task) (w : World) : World :=
  {| state := state w; refs := refs w; console := console w; revoked := revoked w;
     srcObject := srcObject w; inflight := inflight w ++ [t]; uncaught := uncaught w |}.

Definition escape (e : Error) (w : World) : World :=
  {| state := state w; refs := refs w; console := console w; revoked := revoked w;
     srcObject := srcObject w; inflight := inflight w; uncaught := uncaught w ++ [e] |}.

(** Runs a body up to its end or its next suspension point. *)
Fixpoint run (o : origin) (p : Async unit) (w : World) : World :=
  match p with
  | Return _ => w
  | Throw e => escape e w
  | Do a k => run o k (apply_action a w)
  | _ => suspend {| task_origin := o; task_body := p |} w
  end.

Fixpoint remove_nth {A : Type} (i : nat) (l : list A) : list A :=
  match i, l with
  | _, [] => []
  | O, _ :: l' => l'
  | S i', x :: l' => x :: remove_nth i' l'
  end.

Definition retire (i : nat) (w : World) : World :=
  {| state := state w; refs := refs w; console := console w; revoked := revoked w;
     srcObject := srcObject w; inflight := remove_nth i (inflight w);
     uncaught := uncaught w |}.

(** What can happen: the four user actions, and a promise some suspended
    handler waits for being settled. *)
Inductive event : Type :=
| change_file_input (file : option File) (imageUrl : string)
| click_capture (dom : CaptureDom)
| click_compare
| click_reset
| image_loaded (i : nat)
| detection_settled (i : nat) (r : settled (option FaceDetection))
| models_settled (i : nat) (r : settled unit)
| user_media_settled (i : nat) (r : settled MediaStream).

(** A button that is not rendered or is disabled receives no click; the
    file input carries no [disabled] attribute. *)
Definition step (e : event) (w : World) : World :=
  let v := render (state w) in
  match e with
  | change_file_input file imageUrl =>
      run from_handleImageUpload (handleImageUpload (state w) file imageUrl) w
  | click_capture dom =>
      if capture_disabled v then w
      else run from_captureImage (captureImage (state w) (refs w) dom) w
  | click_compare =>
      if compare_rendered v && negb (compare_disabled v)
      then run from_performFaceMatch (performFaceMatch (state w)) w
      else w
  | click_reset =>
      if reset_rendered v then run from_resetCapture resetCapture w else w
  | image_loaded i =>
      match nth_error (inflight w) i with
      | Some {| task_origin := o; task_body := AwaitImageLoad _ k |} =>
          run o k (retire i w)
      | _ => w
      end
  | detection_settled i r =>
      match nth_error (inflight w) i with
      | Some {| task_origin := o; task_body := AwaitDetection _ k |} =>
          run o (k r) (retire i w)
      | _ => w
      end
  | models_settled i r =>
      match nth_error (inflight w) i with
      | Some {| task_origin := o; task_body := AwaitModels k |} =>
          run o (k r) (retire i w)
      | _ => w
      end
  | user_media_settled i r =>
      match nth_error (inflight w) i with
      | Some {| task_origin := o; task_body := AwaitUserMedia k |} =>
          run o (k r) (retire i w)
      | _ => w
      end
  end.

Definition steps (es : list event) (w : World) : World :=
  fold_left (fun w e => step e w) es w.

(** The page once mounted: both effects (lines 17-50) have started. *)
Definition mounted (video : HTMLVideoElement) (canvas : HTMLCanvasElement) : World :=
  let r := {| videoRef := Some video; canvasRef := Some canvas |} in
  run from_startVideo (startVideo r)
    (run from_loadModels loadModels
       {| state := initial_state; refs := r; console := []; revoked := [];
          srcObject := None; inflight := []; uncaught := [] |}).

End App.

(** ** Notions the statements are written with *)

(** The clamp of the specification, [clamp(lo, hi, x)]: [lo] at and below
    [lo], [hi] at and above [hi], [x] in between. *)
Definition clamp (lo hi x : number) : number :=
  if le x lo then lo else if le hi x then hi else x.

(** [x] lies in the closed interval from [lo] to [hi]. *)
Definition within (lo hi x : number) : Prop :=
  le lo x = true /\ le x hi = true.

(** The shifted mantissa of a rounding step is not negative. *)
Definition nonneg_mantissa (mrs : shr_record) : Prop := (0 <= shr_m mrs)%Z.

(** No character of [s] is [c]. *)
Fixpoint avoids (c : ascii) (s : string) : bool :=
  match s with
  | EmptyString => true
  | String a s' => negb (Ascii.eqb a c) && avoids c s'
  end.

(** The two readings of a result message: the test of line 263, which
    picks the green panel, and its counterpart for the cross mark. *)
Definition cross_mark : string := "❌".
Definition shows_match (msg : string) : bool := includes msg check_mark.
Definition shows_no_match (msg : string) : bool := includes msg cross_mark.

(** The threshold of the specification, 0.5, written as the binary64
    number it is, [2^52 * 2^-53], and not through the literal the code
    reads at line 156. *)
Definition one_half : number := S754_finite false 4503599627370496 (-53).

(** Which descriptor a state lacks. *)
Inductive missing : Type :=
| missing_reference
| missing_captured
| missing_both.

Definition missing_input (s : State) : option missing :=
  match referenceDescriptor s, capturedDescriptor s with
  | None, None => Some missing_both
  | None, Some _ => Some missing_reference
  | Some _, None => Some missing_captured
  | Some _, Some _ => None
  end.

(** The text of lines 159-160 for a distance [d]. *)
Definition result_message {runtime : Runtime} (d : number) : string :=
  "Match Result: " ++ toFixed Number_toString (similarity d) 2 ++ "% similar" ++ nl ++
  (if lt d matchThreshold then match_found else no_match_found).

Definition please_ensure : string := "Please ensure both images have detected faces".

(** *** Paths of a handler body *)

(** [Q] holds of the state in which the body ends, on every path: whatever
    the awaited promises settle to, and whatever the other handlers did to
    the state while the body was suspended. *)
Fixpoint on_every_path (Q : State -> Prop) (p : Async unit) (s : State) : Prop :=
  match p with
  | Return _ => Q s
  | Throw _ => Q s
  | Do a k => on_every_path Q k (set_state a s)
  | AwaitImageLoad _ k => forall s', on_every_path Q k s'
  | AwaitDetection _ k => forall r s', on_every_path Q (k r) s'
  | AwaitModels k => forall r s', on_every_path Q (k r) s'
  | AwaitUserMedia k => forall r s', on_every_path Q (k r) s'
  end.

(** No path of the body ends by an exception. *)
Fixpoint never_throws (p : Async unit) : Prop :=
  match p with
  | Return _ => True
  | Throw _ => False
  | Do _ k => never_throws k
  | AwaitImageLoad _ k => never_throws k
  | AwaitDetection _ k => forall r, never_throws (k r)
  | AwaitModels k => forall r, never_throws (k r)
  | AwaitUserMedia k => forall r, never_throws (k r)
  end.

(** Every path of the body ends once [n] awaited promises have settled. *)
Fixpoint ends_within (p : Async unit) (n : nat) {struct p} : Prop :=
  match p with
  | Return _ => True
  | Throw _ => True
  | Do _ k => ends_within k n
  | AwaitImageLoad _ k =>
      match n with O => False | S n' => ends_within k n' end
  | AwaitDetection _ k =>
      match n with O => False | S n' => forall r, ends_within (k r) n' end
  | AwaitModels k =>
      match n with O => False | S n' => forall r, ends_within (k r) n' end
  | AwaitUserMedia k =>
      match n with O => False | S n' => forall r, ends_within (k r) n' end
  end.

(** The body begins with a promise. *)
Definition awaiting (p : Async unit) : bool :=
  match p with
  | AwaitImageLoad _ _ | AwaitDetection _ _ | AwaitModels _ | AwaitUserMedia _ => true
  | _ => false
  end.

(** [q] is what is left of [p] once the promise [p] begins with has
    settled. *)
Definition continues (p q : Async unit) : Prop :=
  match p with
  | AwaitImageLoad _ k => q = k
  | AwaitDetection _ k => exists r, q = k r
  | AwaitModels k => exists r, q = k r
  | AwaitUserMedia k => exists r, q = k r
  | _ => False
  end.

(** A body all of whose effects satisfy [P] and all of whose paths end
    with a body in [L]. *)
Inductive handled (P : action -> Prop) (L : Async unit -> Prop) : Async unit -> Prop :=
| handled_end (l : Async unit) : L l -> handled P L l
| handled_do (a : action) (k : Async unit) :
    P a -> handled P L k -> handled P L (Do a k)
| handled_image (src : string) (k : Async unit) :
    handled P L k -> handled P L (AwaitImageLoad src k)
| handled_detection (img : string) (k : settled (option FaceDetection) -> Async unit) :
    (forall r, handled P L (k r)) -> handled P L (AwaitDetection img k)
| handled_models (k : settled unit -> Async unit) :
    (forall r, handled P L (k r)) -> handled P L (AwaitModels k)
| handled_media (k : settled MediaStream -> Async unit) :
    (forall r, handled P L (k r)) -> handled P L (AwaitUserMedia k).

(** Effects that leave [modelsLoaded] and [isProcessing] as they are. *)
Definition keeps_flags (a : action) : Prop :=
  match a with
  | setModelsLoaded _ | setIsProcessing _ => False
  | _ => True
  end.

(** Effects that leave the whole state as it is. *)
Definition silent (a : action) : Prop :=
  match a with
  | console_log _ | console_error _ _ | revokeObjectURL _ | set_srcObject _ => True
  | _ => False
  end.

Definition returns (p : Async unit) : Prop := p = Return tt.
Definition releases (p : Async unit) : Prop := p = perform (setIsProcessing false).

(** Finds the shape of a handler body by running through it. *)
Ltac shape :=
  repeat first
    [ apply handled_end; reflexivity
    | apply handled_do; [exact I|]
    | apply handled_image
    | apply handled_detection; intros [[?|]|?]; simpl
    | apply handled_models; intros [[]|?]; simpl
    | apply handled_media; intros [?|?]; simpl ].

(** *** Suspended handlers *)

Definition origin_eqb (o1 o2 : origin) : bool :=
  match o1, o2 with
  | from_loadModels, from_loadModels
  | from_startVideo, from_startVideo
  | from_handleImageUpload, from_handleImageUpload
  | from_captureImage, from_captureImage
  | from_performFaceMatch, from_performFaceMatch
  | from_resetCapture, from_resetCapture => true
  | _, _ => false
  end.

Definition is_from (o : origin) (t : Task) : bool := origin_eqb o (task_origin t).

Definition count_from (o : origin) (l : list Task) : nat :=
  List.length (filter (is_from o) l).

Definition capture_in_flight (w : World) : bool :=
  existsb (is_from from_captureImage) (inflight w).

(** An operation started by a user action is in flight; the comparison and
    the reset never suspend. *)
Definition user_operation_in_flight (w : World) : bool :=
  existsb (fun t => is_from from_handleImageUpload t || is_from from_captureImage t)
    (inflight w).

Definition user_action (e : event) : bool :=
  match e with
  | change_file_input _ _ | click_capture _ | click_compare | click_reset => true
  | _ => false
  end.

(** What a suspended handler can be, by the handler it comes from. *)
Definition task_wf (t : Task) : Prop :=
  awaiting (task_body t) = true /\
  match task_origin t with
  | from_loadModels => task_body t = loadModels
  | from_startVideo => handled silent returns (task_body t)
  | from_handleImageUpload => handled keeps_flags returns (task_body t)
  | from_captureImage => handled keeps_flags releases (task_body t)
  | from_performFaceMatch | from_resetCapture => False
  end.

(** The invariant of the event loop. *)
Record invariant (w : World) : Prop := {
  inv_uncaught : uncaught w = [];
  inv_tasks : Forall task_wf (inflight w);
  inv_processing :
    count_from from_captureImage (inflight w) = if isProcessing (state w) then 1%nat else 0%nat;
  inv_not_loaded :
    modelsLoaded (state w) = false ->
    referenceDescriptor (state w) = None /\
    capturedDescriptor (state w) = None /\
    count_from from_handleImageUpload (inflight w) = 0%nat /\
    count_from from_captureImage (inflight w) = 0%nat;
  inv_loaded :
    modelsLoaded (state w) = true -> count_from from_loadModels (inflight w) = 0%nat;
  inv_loading_once : (count_from from_loadModels (inflight w) <= 1)%nat
}.

(** [w'] differs from [w] at most by its state, the two flags excepted,
    and by what it logged. *)
Definition same_flags (w w' : World) : Prop :=
  inflight w' = inflight w /\ uncaught w' = uncaught w /\ refs w' = refs w /\
  modelsLoaded (state w') = modelsLoaded (state w) /\
  isProcessing (state w') = isProcessing (state w).

Definition same_state (w w' : World) : Prop :=
  inflight w' = inflight w /\ uncaught w' = uncaught w /\ refs w' = refs w /\
  state w' = state w.

(** The claims about gating, as they are worded. *)

(** "During any asynchronous operation triggered by one of these actions,
    the controls are disabled so no second invocation can start." *)
Definition gated_while_in_flight (runtime : Runtime) : Prop :=
  forall (video : HTMLVideoElement) (canvas : HTMLCanvasElement) (es : list event) (e : event),
    let w := steps es (mounted video canvas) in
    user_operation_in_flight w = true ->
    user_action e = true ->
    step e w = w.

(** "A diagnostic message that names the missing input": the missing input
    can be read off the message. *)
Definition names_missing_input (runtime : Runtime) : Prop :=
  exists names : string -> missing,
    forall (w : World) (m : missing),
      missing_input (state w) = Some m ->
      names (matchResult (state
        (run from_performFaceMatch (performFaceMatch (state w)) w))) = m.

(** *** Concrete inputs *)

Module Sample.

(** A runtime whose distance function answers [d] whatever the
    descriptors; its [Number::toString] is reached by no value printed
    here. *)
Definition runtime (d : number) : Runtime :=
  {| euclideanDistance := fun _ _ => d; Number_toString := fun _ => "" |}.

Definition video : HTMLVideoElement := {| videoWidth := 640; videoHeight := 480 |}.
Definition canvas : HTMLCanvasElement := {| canvas_width := 640; canvas_height := 480 |}.
Definition photo : File := {| file_name := "reference.png" |}.
Definition dom : CaptureDom :=
  {| getContext_2d := true; toDataURL := "data:image/jpeg;base64,/9j/4AAQ" |}.
Definition face (x : number) : FaceDetection := {| descriptor := [x] |}.

(** The page with the models loaded. *)
Definition ready (d : number) : World :=
  @steps (runtime d) [models_settled 0 (Fulfilled tt)] (mounted video canvas).

(** The page after an upload and a capture that both found a face. *)
Definition both_faces (d : number) : World :=
  @steps (runtime d)
    [change_file_input (Some photo) "blob:reference";
     image_loaded 1; detection_settled 1 (Fulfilled (Some (face (of_Z 1))));
     click_capture dom;
     image_loaded 1; detection_settled 1 (Fulfilled (Some (face (of_Z 0))))]
    (ready d).

(** The page with only the reference, and with only the capture. *)
Definition reference_only (d : number) : World :=
  @steps (runtime d)
    [change_file_input (Some photo) "blob:reference";
     image_loaded 1; detection_settled 1 (Fulfilled (Some (face (of_Z 1))))]
    (ready d).

Definition capture_only (d : number) : World :=
  @steps (runtime d)
    [click_capture dom;
     image_loaded 1; detection_settled 1 (Fulfilled (Some (face (of_Z 0))))]
    (ready d).

End Sample.

(** *** Notions of the further properties *)

(** The texts the component writes in [matchResult]: the empty string of
    the reset, the four fixed notices of the upload and the capture, and
    the result of a comparison of two descriptors. *)
Definition written_message {runtime : Runtime} (m : string) : Prop :=
  m = "" \/
  m = "No face detected in the uploaded image" \/
  m = "Error processing the image" \/
  m = "No face detected in captured image" \/
  m = "Error processing the captured image" \/
  exists reference captured : Float32Array,
    m = result_message (euclideanDistance reference captured).

(** Effects that write such a text, or raise [modelsLoaded], or touch
    neither. *)
Definition tame {runtime : Runtime} (a : action) : Prop :=
  match a with
  | setMatchResult m => written_message m
  | setModelsLoaded v => v = true
  | _ => True
  end.

Record tame_world {runtime : Runtime} (w : World) : Prop := {
  tame_message : written_message (matchResult (state w));
  tame_tasks : Forall (fun t => handled tame returns (task_body t)) (inflight w)
}.

(** The events of the file input, taking the files of [l] in turn. *)
Definition uploads (l : list (File * string)) : list event :=
  map (fun fu => change_file_input (Some (fst fu)) (snd fu)) l.

(** The event settles the promise a suspended capture awaits. *)
Definition resumes_capture {runtime : Runtime} (e : event) (w : World) : bool :=
  match e with
  | image_loaded i | detection_settled i _ | models_settled i _ | user_media_settled i _ =>
      match nth_error (inflight w) i with
      | Some t => is_from from_captureImage t
      | None => false
      end
  | _ => false
  end.

(** A suspended capture that waits for the frame [src] to load (line
    121). *)
Definition awaits_load (src : string) (t : Task) : bool :=
  is_from from_captureImage t &&
  match task_body t with
  | AwaitImageLoad src' _ => String.eqb src' src
  | _ => false
  end.

Definition capture_awaits_load (src : string) (w : World) : bool :=
  existsb (awaits_load src) (inflight w).

(** The event is the [load] of the frame a suspended capture waits for. *)
Definition loads_capture (e : event) (w : World) : bool :=
  match e with
  | image_loaded i =>
      match nth_error (inflight w) i with
      | Some t => is_from from_captureImage t
      | None => false
      end
  | _ => false
  end.

(** In the course of [es] the frame of no capture loads. *)
Fixpoint never_loads_capture {runtime : Runtime} (es : list event) (w : World) : bool :=
  match es with
  | [] => true
  | e :: es' => negb (loads_capture e w) && never_loads_capture es' (step e w)
  end.

(** The event is a click on the compare button. *)
Definition is_comparison (e : event) : bool :=
  match e with
  | click_compare => true
  | _ => false
  end.

(** *** More concrete inputs *)

Module Scene.

Definition second_photo : File := {| file_name := "other.png" |}.

(** A canvas that gives no 2d context. *)
Definition no_context : CaptureDom :=
  {| getContext_2d := false; toDataURL := "data:," |}.

(** The page with a capture suspended on its image. *)
Definition capturing (d : number) : World :=
  @steps (Sample.runtime d) [click_capture Sample.dom] (Sample.ready d).

Definition mounted_refs : Refs :=
  {| videoRef := Some Sample.video; canvasRef := Some Sample.canvas |}.

End Scene.

(** A page whose webcam was refused, and what happens on it. *)

Module Refused.

(** The video element of a page whose webcam was refused: no frame ever
    arrives, so both dimensions are 0. *)
Definition video : HTMLVideoElement := {| videoWidth := 0; videoHeight := 0 |}.

(** What the browser answers for the canvas of lines 109-111, then 0 by
    0: a context, and the data URL of a bitmap without pixels, which is
    no image. *)
Definition empty_frame : CaptureDom :=
  {| getContext_2d := true; toDataURL := "data:," |}.

(** The page with the models loaded and the webcam refused. *)
Definition page (d : number) : World :=
  @steps (Sample.runtime d)
    [models_settled 0 (Fulfilled tt); user_media_settled 0 (Rejected "NotAllowedError")]
    (mounted video Sample.canvas).

(** What follows the click on the capture button: another click on it
    and one on reset, an upload whose face is found, a detection settled
    at the place of the capture, which awaits none, a click on compare
    and one more on capture. *)
Definition afterwards : list event :=
  [click_capture Sample.dom; click_reset;
   change_file_input (Some Sample.photo) "blob:reference";
   image_loaded 1; detection_settled 1 (Fulfilled (Some (Sample.face (of_Z 1))));
   detection_settled 0 (Fulfilled None); click_compare; click_capture empty_frame].

(** What can fail does: the webcam is refused, the detection of an
    upload is rejected, and the canvas of a capture gives no context. *)
Definition caught : list event :=
  [user_media_settled 1 (Rejected "NotAllowedError");
   models_settled 0 (Fulfilled tt);
   change_file_input (Some Sample.photo) "blob:reference";
   image_loaded 0; detection_settled 0 (Rejected "detection failed");
   click_capture Scene.no_context].

End Refused.

(** * Properties *)

(** ** Numbers *)

Module JSNumberFacts.
Local Open Scope Z_scope.

Lemma SFcompare_antisym (x y : number) :
  SFcompare y x = option_map CompOpp (SFcompare x y).
Proof.
  destruct x as [sx|sx| |sx mx ex], y as [sy|sy| |sy my ey]; simpl;
    try destruct sx; try destruct sy; try reflexivity.
  - rewrite (Z.compare_antisym ey ex).
    destruct (ey ?= ex); simpl; try reflexivity.
    rewrite (Pos.compare_cont_antisym mx my Eq). reflexivity.
  - rewrite (Z.compare_antisym ey ex).
    destruct (ey ?= ex); simpl; try reflexivity.
    rewrite (Pos.compare_cont_antisym mx my Eq). reflexivity.
Qed.

Lemma lt_not_ge (x y : number) : lt x y = true -> ge x y = false.
Proof.
  unfold lt, ge, SFltb, SFleb. rewrite (SFcompare_antisym x y).
  destruct (SFcompare x y) as [[ | | ]|]; simpl; congruence.
Qed.

Lemma ge_not_lt (x y : number) : ge x y = true -> lt x y = false.
Proof.
  intros H. destruct (lt x y) eqn:E; [|reflexivity].
  apply lt_not_ge in E. congruence.
Qed.

Lemma lt_le (x y : number) : lt x y = true -> le x y = true.
Proof.
  unfold lt, le, SFltb, SFleb. destruct (SFcompare x y) as [[ | | ]|]; congruence.
Qed.

(** Two numbers are ordered one way or the other. *)
Lemma lt_or_ge (x y : number) :
  isNaN x = false -> isNaN y = false -> lt x y = true \/ ge x y = true.
Proof.
  intros Hx Hy. unfold lt, ge, SFltb, SFleb. rewrite (SFcompare_antisym x y).
  destruct x as [sx|sx| |sx mx ex], y as [sy|sy| |sy my ey]; try discriminate;
    simpl; try destruct sx; try destruct sy; simpl; auto;
    destruct (ex ?= ey); simpl; auto; destruct (Pos.compare_cont Eq mx my); simpl; auto.
Qed.

Lemma of_Z_0 : of_Z 0 = pos_zero.
Proof. reflexivity. Qed.

Lemma of_Z_1 : of_Z 1 = S754_finite false 4503599627370496 (-52).
Proof. vm_compute. reflexivity. Qed.

Lemma of_Z_100 : of_Z 100 = S754_finite false 7036874417766400 (-46).
Proof. vm_compute. reflexivity. Qed.

Lemma matchThreshold_value : matchThreshold = S754_finite false 4503599627370496 (-53).
Proof. vm_compute. reflexivity. Qed.

(** [one_half] is the number whose double is 1. *)
Lemma one_half_doubled : mul (of_Z 2) one_half = of_Z 1.
Proof. vm_compute. reflexivity. Qed.

Lemma ten_pow_21_value : ten_pow_21 = S754_finite false 7629394531250000 17.
Proof. vm_compute. reflexivity. Qed.

(** [Math.max(0, Math.min(100, x))] unfolded. *)
Lemma max_0_min_100 (x : number) :
  Math_max [of_Z 0; Math_min [of_Z 100; x]] =
  if isNaN x then NaN
  else
    let m := if lt x (of_Z 100) then x else of_Z 100 in
    if lt (of_Z 0) m then m else of_Z 0.
Proof.
  rewrite of_Z_0, of_Z_100. unfold Math_max, Math_min. cbn [Math_min_from Math_max_from].
  change (isNaN (S754_finite false 7036874417766400 (-46))) with false.
  change (isNaN pos_zero) with false. cbv iota.
  destruct (isNaN x) eqn:Hx; [reflexivity|].
  change (lt (S754_finite false 7036874417766400 (-46)) pos_infinity) with true.
  cbn [is_neg_zero is_pos_zero andb pos_infinity neg_infinity pos_zero].
  rewrite andb_false_r. cbv zeta. cbv iota.
  change (lt (S754_infinity true) (S754_zero false)) with true. cbv iota.
  set (m := if lt x _ then x else _).
  assert (Hm : isNaN m = false) by (subst m; destruct (lt x _); [assumption|reflexivity]).
  rewrite Hm. rewrite andb_false_r. reflexivity.
Qed.

(** The linear map of line 155 sends numbers to numbers. *)
Section NoNaN.

Lemma shr_1_nonneg (mrs : shr_record) : nonneg_mantissa mrs -> nonneg_mantissa (shr_1 mrs).
Proof.
  unfold nonneg_mantissa. destruct mrs as [m r s]. simpl.
  destruct m as [|[p|p|]|[p|p|]]; simpl; lia.
Qed.

Lemma iter_pos_invariant {A : Type} (f : A -> A) (P : A -> Prop) :
  (forall a, P a -> P (f a)) -> forall p a, P a -> P (iter_pos f p a).
Proof.
  intros Hf. induction p as [p IH|p IH|]; intros a Ha; simpl; auto.
Qed.

Lemma shr_fexp_nonneg (m e : Z) (l : location) :
  0 <= m -> 0 <= shr_m (fst (shr_fexp prec emax m e l)).
Proof.
  intros Hm. unfold shr_fexp, shr.
  assert (H0 : nonneg_mantissa (shr_record_of_loc m l))
    by (unfold nonneg_mantissa; destruct l as [|[ | | ]]; simpl; exact Hm).
  destruct (fexp prec emax (Zdigits2 m + e) - e) as [|p|p]; simpl; try exact H0.
  apply (iter_pos_invariant shr_1 nonneg_mantissa shr_1_nonneg). exact H0.
Qed.

Lemma round_nearest_even_nonneg (m : Z) (l : location) :
  0 <= m -> 0 <= round_nearest_even m l.
Proof.
  intros Hm. unfold round_nearest_even.
  destruct l as [|[ | | ]]; try destruct (Z.even m); lia.
Qed.

Lemma binary_round_aux_number (sx : bool) (mx ex : Z) (lx : location) :
  0 <= mx -> isNaN (binary_round_aux prec emax sx mx ex lx) = false.
Proof.
  intros Hm. unfold binary_round_aux.
  pose proof (shr_fexp_nonneg mx ex lx Hm) as H1.
  destruct (shr_fexp prec emax mx ex lx) as [mrs' e']. simpl in H1.
  pose proof (shr_fexp_nonneg _ e' loc_Exact
                (round_nearest_even_nonneg _ (loc_of_shr_record mrs') H1)) as H2.
  destruct (shr_fexp prec emax _ e' loc_Exact) as [mrs'' e'']. simpl in H2.
  destruct (shr_m mrs'') as [|p|p]; try reflexivity.
  - destruct (e'' <=? emax - prec); reflexivity.
  - lia.
Qed.

Lemma binary_round_number (sx : bool) (mx : positive) (ex : Z) :
  isNaN (binary_round prec emax sx mx ex) = false.
Proof.
  unfold binary_round. destruct (shl_align _ _ _) as [mz ez].
  apply binary_round_aux_number. lia.
Qed.

Lemma binary_normalize_number (m e : Z) (szero : bool) :
  isNaN (binary_normalize prec emax m e szero) = false.
Proof.
  destruct m; simpl; try reflexivity; apply binary_round_number.
Qed.

Lemma one_minus_number (d : number) :
  isNaN d = false -> isNaN (sub (of_Z 1) d) = false.
Proof.
  intros Hd. rewrite of_Z_1. unfold sub, SFsub.
  destruct d as [s|s| |s m e]; try discriminate; try reflexivity.
  apply binary_normalize_number.
Qed.

Lemma times_100_number (y : number) :
  isNaN y = false -> isNaN (mul y (of_Z 100)) = false.
Proof.
  intros Hy. rewrite of_Z_100. unfold mul, SFmul.
  destruct y as [s|s| |s m e]; try discriminate; try reflexivity.
  apply binary_round_aux_number. lia.
Qed.

End NoNaN.

(** The value of line 155 is NaN exactly on NaN, and otherwise one of
    [+0], [100] and the linear term, in that range. *)
Lemma similarity_cases (d : number) :
  let x := mul (sub (of_Z 1) d) (of_Z 100) in
  (isNaN x = true /\ similarity d = NaN) \/
  (isNaN x = false /\ within (of_Z 0) (of_Z 100) (similarity d)).
Proof.
  intros x. unfold similarity. fold x. rewrite max_0_min_100.
  destruct (isNaN x) eqn:Hx; [left; split; reflexivity|right; split; [reflexivity|]].
  cbv zeta. unfold within.
  destruct (lt x (of_Z 100)) eqn:H100.
  - destruct (lt (of_Z 0) x) eqn:H0.
    + split; apply lt_le; assumption.
    + rewrite of_Z_0, of_Z_100. split; reflexivity.
  - change (lt (of_Z 0) (of_Z 100)) with true. cbv iota.
    rewrite of_Z_0, of_Z_100. split; reflexivity.
Qed.

Lemma similarity_within (d : number) :
  isNaN d = false -> within (of_Z 0) (of_Z 100) (similarity d).
Proof.
  intros Hd. destruct (similarity_cases d) as [[Hx _]|[_ H]]; [|exact H].
  rewrite times_100_number in Hx by (apply one_minus_number; exact Hd).
  discriminate.
Qed.

Lemma similarity_NaN : similarity NaN = NaN.
Proof. reflexivity. Qed.

(** Line 155 is the clamp of the specification. *)
Lemma similarity_clamp (d : number) :
  similarity d = clamp (of_Z 0) (of_Z 100) (mul (sub (of_Z 1) d) (of_Z 100)).
Proof.
  unfold similarity. rewrite max_0_min_100.
  set (x := mul (sub (of_Z 1) d) (of_Z 100)). unfold clamp. cbv zeta.
  destruct (isNaN x) eqn:Hx.
  - destruct x; try discriminate. reflexivity.
  - destruct (le x (of_Z 0)) eqn:Hle0.
    + assert (Hlt : lt x (of_Z 100) = true).
      { rewrite of_Z_0 in Hle0. rewrite of_Z_100.
        destruct x as [s|s| |s m e]; try discriminate; try reflexivity;
          destruct s; try discriminate; reflexivity. }
      rewrite Hlt. rewrite (ge_not_lt (of_Z 0) x Hle0). reflexivity.
    + assert (H0 : lt (of_Z 0) x = true).
      { destruct (lt_or_ge (of_Z 0) x) as [H|H]; auto.
        unfold ge in H. unfold le in Hle0. congruence. }
      destruct (le (of_Z 100) x) eqn:Hge.
      * rewrite (ge_not_lt x (of_Z 100) Hge).
        change (lt (of_Z 0) (of_Z 100)) with true. reflexivity.
      * destruct (lt_or_ge x (of_Z 100)) as [H|H]; auto.
        -- rewrite H, H0. reflexivity.
        -- unfold ge in H. unfold le in Hge. congruence.
Qed.

End JSNumberFacts.

(** ** Strings *)

Module StringFacts.

Lemma avoids_app (c : ascii) (s1 s2 : string) :
  avoids c (s1 ++ s2) = avoids c s1 && avoids c s2.
Proof.
  induction s1 as [|a s1 IH]; simpl; [reflexivity|].
  rewrite IH. now rewrite andb_assoc.
Qed.

Lemma avoids_substring (c : ascii) (s : string) :
  avoids c s = true -> forall n m, avoids c (substring n m s) = true.
Proof.
  induction s as [|a s IH]; intros H n m.
  - destruct n, m; reflexivity.
  - simpl in H. apply andb_prop in H. destruct H as [Ha Hs].
    destruct n as [|n]; [destruct m as [|m]|]; simpl; auto.
    rewrite Ha. simpl. apply IH. exact Hs.
Qed.

Lemma avoids_zeros (c : ascii) (n : nat) :
  avoids c "0" = true -> avoids c (zeros n) = true.
Proof.
  intros H. induction n as [|n IH]; simpl; [reflexivity|].
  simpl in H. rewrite andb_true_r in H. now rewrite H, IH.
Qed.

Lemma avoids_digits (c : ascii) (u : Decimal.uint) :
  avoids c "0123456789" = true -> avoids c (NilEmpty.string_of_uint u) = true.
Proof.
  intros H. simpl in H. rewrite andb_true_r in H.
  repeat (apply andb_prop in H; let Hd := fresh "Hd" in destruct H as [Hd H]).
  induction u as [|u IH|u IH|u IH|u IH|u IH|u IH|u IH|u IH|u IH|u IH]; simpl;
    try reflexivity; rewrite IH, andb_true_r; assumption.
Qed.

Lemma avoids_decimal_digits (c : ascii) (n : Z) :
  avoids c "0123456789" = true -> avoids c (decimal_digits n) = true.
Proof.
  intros H. unfold decimal_digits, NilZero.string_of_uint.
  destruct (N.to_uint (Z.to_N n)) eqn:E; try (rewrite <- E); try (now apply avoids_digits).
  simpl in H. apply andb_prop in H. destruct H as [H _]. simpl. now rewrite H.
Qed.

Lemma avoids_fixed_notation (c : ascii) (n : Z) (f : nat) :
  avoids c "0123456789." = true -> avoids c (fixed_notation n f) = true.
Proof.
  intros H.
  assert (Hdig : avoids c "0123456789" = true).
  { change "0123456789." with ("0123456789" ++ ".") in H.
    rewrite avoids_app in H. apply andb_prop in H. tauto. }
  assert (Hdot : avoids c "." = true).
  { change "0123456789." with ("0123456789" ++ ".") in H.
    rewrite avoids_app in H. apply andb_prop in H. tauto. }
  assert (H0 : avoids c "0" = true).
  { simpl in Hdig. apply andb_prop in Hdig. destruct Hdig as [Hd _]. simpl. now rewrite Hd. }
  unfold fixed_notation. destruct f as [|f]; [now apply avoids_decimal_digits|].
  set (m := if (_ <=? _)%nat then _ else _).
  assert (Hm : avoids c m = true).
  { subst m. destruct (_ <=? _)%nat; [|now apply avoids_decimal_digits].
    rewrite avoids_app, avoids_zeros by assumption.
    now rewrite avoids_decimal_digits. }
  rewrite !avoids_app, !avoids_substring, Hdot by assumption. reflexivity.
Qed.

(** A pattern whose first character does not occur in [s1] can only begin
    after [s1]. *)
Lemma includes_skip (c : ascii) (t s1 s2 : string) :
  avoids c s1 = true ->
  includes (s1 ++ s2) (String c t) = includes s2 (String c t).
Proof.
  induction s1 as [|a s1 IH]; intros H; [reflexivity|].
  simpl in H. apply andb_prop in H. destruct H as [Ha Hs].
  change (String a s1 ++ s2) with (String a (s1 ++ s2)).
  cbn [includes]. rewrite (IH Hs).
  cbn [prefix]. destruct (ascii_dec c a) as [->|_].
  - rewrite Ascii.eqb_refl in Ha. discriminate.
  - reflexivity.
Qed.

End StringFacts.

(** ** The comparison (lines 148-162) *)

Section Comparison.

Import JSNumberFacts StringFacts.

Context {runtime : Runtime}.

Local Abbreviation message := result_message.

Lemma performFaceMatch_present (w : World) (reference captured : Float32Array) :
  referenceDescriptor (state w) = Some reference ->
  capturedDescriptor (state w) = Some captured ->
  run from_performFaceMatch (performFaceMatch (state w)) w =
  apply_action (setMatchResult (message (euclideanDistance reference captured))) w.
Proof.
  intros Hr Hc. unfold performFaceMatch.
  rewrite Hr, Hc. reflexivity.
Qed.

Lemma performFaceMatch_absent (w : World) :
  referenceDescriptor (state w) = None \/ capturedDescriptor (state w) = None ->
  run from_performFaceMatch (performFaceMatch (state w)) w =
  apply_action (setMatchResult please_ensure) w.
Proof.
  intros H. unfold performFaceMatch.
  destruct H as [H|H]; rewrite H; [|destruct (referenceDescriptor (state w))]; reflexivity.
Qed.

(** The percentage printed contains none of the bytes of the two marks. *)
Lemma toFixed_similarity_avoids (c : ascii) (d : number) :
  avoids c "0123456789.NaN" = true ->
  avoids c (toFixed Number_toString (similarity d) 2) = true.
Proof.
  intros H.
  assert (Hfix : avoids c "0123456789." = true).
  { change "0123456789.NaN" with ("0123456789." ++ "NaN") in H.
    rewrite avoids_app in H. apply andb_prop in H. tauto. }
  assert (Hnan : avoids c "NaN" = true).
  { change "0123456789.NaN" with ("0123456789." ++ "NaN") in H.
    rewrite avoids_app in H. apply andb_prop in H. tauto. }
  destruct (similarity_cases d) as [[_ E]|[_ [H0 H100]]].
  - rewrite E. exact Hnan.
  - unfold toFixed.
    destruct (similarity d) as [s|s| |s m e] eqn:E; try discriminate.
    + now apply avoids_fixed_notation.
    + destruct s; discriminate.
    + rewrite of_Z_0 in H0. rewrite of_Z_100 in H100.
      destruct s; [discriminate|].
      assert (Hsmall : ge (abs (S754_finite false m e)) ten_pow_21 = false).
      { rewrite ten_pow_21_value. unfold le, SFleb in H100. unfold ge, SFleb, abs.
        cbn [SFabs SFcompare] in *. destruct (e ?= -46)%Z eqn:Ee; try discriminate.
        - apply Z.compare_eq in Ee. subst e. reflexivity.
        - rewrite Z.compare_lt_iff in Ee.
          assert (Hc : (17 ?= e)%Z = Gt) by (apply Z.compare_gt_iff; lia).
          rewrite Hc. reflexivity. }
      rewrite Hsmall. cbn [append]. now apply avoids_fixed_notation.
Qed.

Lemma shows_match_message (d : number) :
  shows_match (message d) = lt d matchThreshold.
Proof.
  unfold shows_match, result_message, check_mark.
  rewrite !includes_skip; try reflexivity.
  - destruct (lt d matchThreshold); reflexivity.
  - now apply toFixed_similarity_avoids.
Qed.

Lemma shows_no_match_message (d : number) :
  shows_no_match (message d) = negb (lt d matchThreshold).
Proof.
  unfold shows_no_match, result_message, cross_mark.
  rewrite !includes_skip; try reflexivity.
  - destruct (lt d matchThreshold); reflexivity.
  - now apply toFixed_similarity_avoids.
Qed.

(** C1.  With both descriptors present, [performFaceMatch] writes the verdict
    of a match exactly when the distance is below 0.5, the number
    [one_half] of the specification: the message then carries the check
    mark (the test of line 263) and not the cross mark; at 0.5 and above,
    and for a distance that is no number, it carries the cross mark and
    not the check mark. *)
Theorem performFaceMatch_classifies (w : World) (reference captured : Float32Array) :
  referenceDescriptor (state w) = Some reference ->
  capturedDescriptor (state w) = Some captured ->
  let d := euclideanDistance reference captured in
  let msg := matchResult (state (run from_performFaceMatch (performFaceMatch (state w)) w)) in
  (shows_match msg = true <-> lt d one_half = true) /\
  (shows_no_match msg = true <-> lt d one_half = false) /\
  (ge d one_half = true -> shows_match msg = false /\ shows_no_match msg = true) /\
  result_green (render (state (run from_performFaceMatch (performFaceMatch (state w)) w)))
    = lt d one_half.
Proof.
  intros Hr Hc d msg. subst msg.
  rewrite (performFaceMatch_present w reference captured Hr Hc). fold d.
  cbn [apply_action state set_state matchResult render result_green].
  fold (shows_match (message d)).
  rewrite shows_match_message, shows_no_match_message.
  rewrite matchThreshold_value. fold one_half.
  repeat split; try tauto.
  - intros H. now apply negb_true_iff.
  - intros H. now apply negb_true_iff.
  - now apply ge_not_lt.
  - apply negb_true_iff. now apply ge_not_lt.
Qed.

(** C2.  The percentage [performFaceMatch] prints is the value of line 155,
    which is the clamp of the specification applied to [(1 - d) * 100]; for
    every distance that is a number, infinite ones included, it lies
    between 0 and 100. *)
Theorem performFaceMatch_similarity (w : World) (reference captured : Float32Array) :
  referenceDescriptor (state w) = Some reference ->
  capturedDescriptor (state w) = Some captured ->
  let d := euclideanDistance reference captured in
  matchResult (state (run from_performFaceMatch (performFaceMatch (state w)) w)) =
    "Match Result: " ++ toFixed Number_toString (similarity d) 2 ++ "% similar" ++ nl ++
    (if lt d matchThreshold then match_found else no_match_found) /\
  similarity d = clamp (of_Z 0) (of_Z 100) (mul (sub (of_Z 1) d) (of_Z 100)) /\
  (isNaN d = false -> within (of_Z 0) (of_Z 100) (similarity d)).
Proof.
  intros Hr Hc d.
  rewrite (performFaceMatch_present w reference captured Hr Hc). fold d.
  split; [reflexivity|]. split.
  - apply similarity_clamp.
  - apply similarity_within.
Qed.

(** C7.  The three distances of the specification: 0.0 prints 100.00 and
    the match, 0.5 prints 50.00 and no match, 1.2 is clamped to 0, printed
    0.00, and no match. *)
Theorem performFaceMatch_examples (w : World) (reference captured : Float32Array) :
  referenceDescriptor (state w) = Some reference ->
  capturedDescriptor (state w) = Some captured ->
  let d := euclideanDistance reference captured in
  let msg := matchResult (state (run from_performFaceMatch (performFaceMatch (state w)) w)) in
  (d = of_decimal 0 1 ->
     similarity d = of_Z 100 /\
     msg = "Match Result: 100.00% similar" ++ nl ++ "✅ Face Match Found!" /\
     shows_match msg = true) /\
  (d = of_decimal 5 1 ->
     similarity d = of_Z 50 /\
     msg = "Match Result: 50.00% similar" ++ nl ++ "❌ No Match Found" /\
     shows_match msg = false) /\
  (d = of_decimal 12 1 ->
     similarity d = of_Z 0 /\
     msg = "Match Result: 0.00% similar" ++ nl ++ "❌ No Match Found" /\
     shows_match msg = false).
Proof.
  intros Hr Hc d msg. subst msg.
  rewrite (performFaceMatch_present w reference captured Hr Hc). fold d.
  cbn [apply_action state set_state matchResult].
  repeat split; rewrite H; vm_compute; reflexivity.
Qed.

(** C3, as the code has it.  With a descriptor absent, [performFaceMatch]
    computes nothing and writes one fixed message, the same whichever
    descriptor is absent; the compare button is disabled in that state, so
    a click on it changes nothing. *)
Theorem performFaceMatch_blocked (w : World) :
  referenceDescriptor (state w) = None \/ capturedDescriptor (state w) = None ->
  run from_performFaceMatch (performFaceMatch (state w)) w =
    apply_action (setMatchResult "Please ensure both images have detected faces") w /\
  compare_disabled (render (state w)) = true /\
  step click_compare w = w.
Proof.
  intros H. split; [now apply performFaceMatch_absent|].
  assert (Hd : compare_disabled (render (state w)) = true).
  { cbn [render compare_disabled].
    destruct H as [H|H]; rewrite H; cbn [is_null]; now rewrite ?orb_true_r. }
  split; [exact Hd|].
  unfold step. rewrite Hd. now rewrite andb_false_r.
Qed.

(** C4.  [resetCapture] leaves both images and both descriptors null and
    the message empty, whatever the state it starts from; a click on the
    reset button, when the button is there, runs it. *)
Theorem resetCapture_clears (w : World) :
  let w' := run from_resetCapture resetCapture w in
  referenceImage (state w') = None /\
  capturedImage (state w') = None /\
  referenceDescriptor (state w') = None /\
  capturedDescriptor (state w') = None /\
  matchResult (state w') = "" /\
  step click_reset w =
    if reset_rendered (render (state w)) then w' else w.
Proof.
  repeat split.
Qed.

End Comparison.

(** ** The event loop *)

Section EventLoop.

Context {runtime : Runtime}.

(** *** Lists of suspended handlers *)

Lemma count_from_app (o : origin) (l1 l2 : list Task) :
  count_from o (l1 ++ l2) = (count_from o l1 + count_from o l2)%nat.
Proof.
  unfold count_from. now rewrite filter_app, length_app.
Qed.

Lemma count_from_one (o : origin) (t : Task) :
  count_from o [t] = if is_from o t then 1%nat else 0%nat.
Proof.
  unfold count_from. simpl. destruct (is_from o t); reflexivity.
Qed.

Lemma count_from_remove (o : origin) (l : list Task) (i : nat) (t : Task) :
  nth_error l i = Some t ->
  count_from o l =
  (count_from o (remove_nth i l) + if is_from o t then 1 else 0)%nat.
Proof.
  revert i. induction l as [|x l IH]; intros [|i] H; simpl in H; try discriminate.
  - injection H as ->. unfold count_from. simpl.
    destruct (is_from o t); simpl; lia.
  - specialize (IH i H). unfold count_from in *. simpl.
    destruct (is_from o x); simpl; lia.
Qed.

Lemma Forall_remove_nth {A : Type} (P : A -> Prop) (l : list A) (i : nat) :
  Forall P l -> Forall P (remove_nth i l).
Proof.
  intros H. revert i. induction H as [|x l Hx Hl IH]; intros [|i]; simpl; auto.
Qed.

Lemma nth_error_end {A : Type} (l : list A) (x : A) :
  nth_error (l ++ [x]) (List.length l) = Some x.
Proof.
  induction l; simpl; auto.
Qed.

Lemma remove_nth_end {A : Type} (l : list A) (x : A) :
  remove_nth (List.length l) (l ++ [x]) = l.
Proof.
  induction l; simpl; congruence.
Qed.

Lemma existsb_count (o : origin) (l : list Task) :
  existsb (is_from o) l = true <-> (1 <= count_from o l)%nat.
Proof.
  unfold count_from. induction l as [|x l IH]; simpl.
  - split; [discriminate|lia].
  - destruct (is_from o x); simpl; [split; [lia|reflexivity]|exact IH].
Qed.

Lemma origin_eqb_eq (o1 o2 : origin) : origin_eqb o1 o2 = true <-> o1 = o2.
Proof.
  destruct o1, o2; simpl; split; congruence.
Qed.

(** *** Running a body *)

(** A property of the world that the effects of a body preserve holds
    where the body ends or suspends. *)
Lemma run_handled (P : action -> Prop) (L : Async unit -> Prop) (o : origin)
    (R : World -> Prop) :
  (forall a w, P a -> R w -> R (apply_action a w)) ->
  forall p, handled P L p ->
  forall w, R w ->
    (exists l w1, L l /\ R w1 /\ run o p w = run o l w1) \/
    (exists p' w1, awaiting p' = true /\ handled P L p' /\ R w1 /\
       run o p w = suspend {| task_origin := o; task_body := p' |} w1).
Proof.
  intros HR p Hp.
  induction Hp as [l Hl|a k Ha Hk IH|src k Hk _|img k Hk _|k Hk _|k Hk _]; intros w Hw.
  - left. exists l, w. auto.
  - simpl. apply IH. now apply HR.
  - right. exists (AwaitImageLoad src k), w. repeat split; auto. now constructor.
  - right. exists (AwaitDetection img k), w. repeat split; auto. now constructor.
  - right. exists (AwaitModels k), w. repeat split; auto. now constructor.
  - right. exists (AwaitUserMedia k), w. repeat split; auto. now constructor.
Qed.

Lemma handled_continues (P : action -> Prop) (L : Async unit -> Prop) (p q : Async unit) :
  (forall l, L l -> awaiting l = false) ->
  handled P L p -> continues p q -> handled P L q.
Proof.
  intros HL Hp Hq.
  inversion Hp as [l Hl|a k Ha Hk|src k Hk|img k Hk|k Hk|k Hk]; subst; simpl in Hq.
  - apply HL in Hl. destruct p; simpl in Hl; try discriminate; contradiction.
  - contradiction.
  - now subst.
  - destruct Hq as [r ->]. apply Hk.
  - destruct Hq as [r ->]. apply Hk.
  - destruct Hq as [r ->]. apply Hk.
Qed.

Lemma returns_not_awaiting (l : Async unit) : returns l -> awaiting l = false.
Proof. intros ->. reflexivity. Qed.

Lemma releases_not_awaiting (l : Async unit) : releases l -> awaiting l = false.
Proof. intros ->. reflexivity. Qed.

(** *** The shapes of the handlers *)

Lemma startVideo_shape (r : Refs) : handled silent returns (startVideo r).
Proof.
  unfold startVideo. destruct (videoRef r); simpl; shape.
Qed.

Lemma handleImageUpload_shape (s : State) (file : option File) (imageUrl : string) :
  handled keeps_flags returns (handleImageUpload s file imageUrl).
Proof.
  unfold handleImageUpload. destruct file; [destruct (modelsLoaded s)|]; simpl; shape.
Qed.

(** Past its guard, [captureImage] raises the flag and then is a body
    that lowers it on every way out. *)
Lemma captureImage_shape (s : State) (r : Refs) (dom : CaptureDom) :
  captureImage s r dom = Return tt \/
  exists k, captureImage s r dom = Do (setIsProcessing true) k /\
            handled keeps_flags releases k /\ modelsLoaded s = true.
Proof.
  unfold captureImage.
  destruct (videoRef r); [|now left]. destruct (canvasRef r); [|now left].
  destruct (modelsLoaded s); [|now left]. right.
  simpl. eexists. split; [reflexivity|]. split; [|reflexivity].
  destruct (getContext_2d dom); simpl; shape.
Qed.

(** *** The effects and the flags *)

Lemma same_flags_refl (w : World) : same_flags w w.
Proof. repeat split. Qed.

Lemma same_state_refl (w : World) : same_state w w.
Proof. repeat split. Qed.

Lemma keeps_flags_same (w0 : World) (a : action) (w : World) :
  keeps_flags a -> same_flags w0 w -> same_flags w0 (apply_action a w).
Proof.
  unfold same_flags. intros Ha (Hi & Hu & Hr & Hm & Hp).
  destruct a; try contradiction; simpl; auto.
Qed.

Lemma silent_same (w0 : World) (a : action) (w : World) :
  silent a -> same_state w0 w -> same_state w0 (apply_action a w).
Proof.
  unfold same_state. intros Ha (Hi & Hu & Hr & Hs).
  destruct a; try contradiction; simpl; auto.
Qed.

(** *** The invariant *)

Lemma invariant_frame (w w' : World) :
  invariant w ->
  uncaught w' = [] ->
  Forall task_wf (inflight w') ->
  count_from from_captureImage (inflight w') = count_from from_captureImage (inflight w) ->
  isProcessing (state w') = isProcessing (state w) ->
  (count_from from_loadModels (inflight w') <= count_from from_loadModels (inflight w))%nat ->
  modelsLoaded (state w') = modelsLoaded (state w) ->
  (modelsLoaded (state w) = false ->
   referenceDescriptor (state w') = None /\ capturedDescriptor (state w') = None /\
   count_from from_handleImageUpload (inflight w') = 0%nat) ->
  invariant w'.
Proof.
  intros [Iu It Ip In Il Io] Hu Ht Hcc Hp Hcl Hm Hn.
  constructor; auto.
  - now rewrite Hcc, Hp.
  - rewrite Hm. intros H. destruct (Hn H) as (? & ? & ?). destruct (In H) as (_ & _ & _ & ?).
    repeat split; auto. congruence.
  - rewrite Hm. intros H. specialize (Il H). lia.
  - lia.
Qed.

Lemma task_wf_lookup (w : World) (i : nat) (t : Task) :
  invariant w -> nth_error (inflight w) i = Some t -> task_wf t.
Proof.
  intros Hw Hi. apply nth_error_In in Hi.
  pose proof (inv_tasks w Hw) as H. rewrite Forall_forall in H. now apply H.
Qed.

Lemma count_from_lookup (o : origin) (l : list Task) (i : nat) (t : Task) :
  nth_error l i = Some t -> task_origin t = o -> (1 <= count_from o l)%nat.
Proof.
  intros Hi Ho. rewrite (count_from_remove o l i t Hi).
  unfold is_from. rewrite Ho.
  replace (origin_eqb o o) with true by (destruct o; reflexivity). lia.
Qed.

(** A suspended upload or capture witnesses that the models are loaded. *)
Lemma loaded_when_in_flight (w : World) (i : nat) (t : Task) :
  invariant w -> nth_error (inflight w) i = Some t ->
  task_origin t = from_handleImageUpload \/ task_origin t = from_captureImage ->
  modelsLoaded (state w) = true.
Proof.
  intros Hw Hi Ho. destruct (modelsLoaded (state w)) eqn:Hm; [reflexivity|].
  destruct (inv_not_loaded w Hw Hm) as (_ & _ & Hu & Hc).
  destruct Ho as [Ho|Ho]; pose proof (count_from_lookup _ _ _ _ Hi Ho); lia.
Qed.

Ltac counts :=
  repeat rewrite count_from_app; repeat rewrite count_from_one;
  cbn [is_from origin_eqb task_origin] in *; try lia.

(** Resuming a suspended handler keeps the invariant. *)
Lemma invariant_resume (w : World) (i : nat) (t : Task) (q : Async unit) :
  invariant w ->
  nth_error (inflight w) i = Some t ->
  continues (task_body t) q ->
  invariant (run (task_origin t) q (retire i w)).
Proof.
  intros Hw Hi Hq.
  pose proof (task_wf_lookup w i t Hw Hi) as [Haw Hshape].
  pose proof (count_from_remove from_captureImage _ i t Hi) as Hcc.
  pose proof (count_from_remove from_loadModels _ i t Hi) as Hcl.
  pose proof (count_from_remove from_handleImageUpload _ i t Hi) as Hcu.
  pose proof (Forall_remove_nth task_wf _ i (inv_tasks w Hw)) as Hrest.
  pose proof (inv_uncaught w Hw) as Hunc.
  destruct t as [o p]. unfold is_from in Hcc, Hcl, Hcu. cbn [task_origin task_body] in *.
  destruct o; cbn [origin_eqb] in *; try contradiction;
    rewrite ?Nat.add_0_r in Hcc, Hcl, Hcu.
  - (* loadModels *)
    subst p. unfold loadModels, await_models in Hq. simpl in Hq. destruct Hq as [r ->].
    pose proof (inv_loading_once w Hw) as Hone.
    destruct r as [[]|e]; simpl.
    + constructor; cbn [state inflight uncaught apply_action retire set_state
                        modelsLoaded isProcessing referenceDescriptor capturedDescriptor].
      * exact Hunc.
      * exact Hrest.
      * rewrite <- (inv_processing w Hw). lia.
      * discriminate.
      * intros ?. lia.
      * lia.
    + apply (invariant_frame w); cbn [state inflight uncaught apply_action retire set_state];
        auto; try lia.
      intros Hm. destruct (inv_not_loaded w Hw Hm) as (? & ? & ? & ?).
      repeat split; auto. lia.
  - (* startVideo *)
    pose proof (handled_continues _ _ _ _ returns_not_awaiting Hshape Hq) as Hk.
    destruct (run_handled silent returns from_startVideo (same_state (retire i w))
                (silent_same (retire i w)) q Hk (retire i w) (same_state_refl _))
      as [(l & w1 & -> & (Hi1 & Hu1 & Hr1 & Hs1) & ->)|(p' & w1 & Hp' & Hh' & (Hi1 & Hu1 & Hr1 & Hs1) & ->)];
      cbn [run].
    + apply (invariant_frame w); rewrite ?Hi1, ?Hu1, ?Hs1; cbn [retire inflight state uncaught];
        auto; try lia.
      intros Hm. destruct (inv_not_loaded w Hw Hm) as (? & ? & ? & ?).
      repeat split; auto. lia.
    + apply (invariant_frame w); cbn [suspend inflight state uncaught];
        rewrite ?Hi1, ?Hu1, ?Hs1; cbn [retire inflight state uncaught]; auto; counts.
      * apply Forall_app. split; [assumption|]. constructor; [|constructor]. split; assumption.
      * intros Hm. destruct (inv_not_loaded w Hw Hm) as (? & ? & ? & ?).
        repeat split; auto. counts.
  - (* handleImageUpload *)
    pose proof (loaded_when_in_flight w i _ Hw Hi (or_introl eq_refl)) as Hloaded.
    pose proof (handled_continues _ _ _ _ returns_not_awaiting Hshape Hq) as Hk.
    destruct (run_handled keeps_flags returns from_handleImageUpload (same_flags (retire i w))
                (keeps_flags_same (retire i w)) q Hk (retire i w) (same_flags_refl _))
      as [(l & w1 & -> & (Hi1 & Hu1 & Hr1 & Hm1 & Hp1) & ->)
         |(p' & w1 & Hp' & Hh' & (Hi1 & Hu1 & Hr1 & Hm1 & Hp1) & ->)];
      cbn [run].
    + apply (invariant_frame w); rewrite ?Hi1, ?Hu1, ?Hm1, ?Hp1;
        cbn [retire inflight state uncaught]; auto; try lia.
      congruence.
    + apply (invariant_frame w); cbn [suspend inflight state uncaught];
        rewrite ?Hi1, ?Hu1, ?Hm1, ?Hp1; cbn [retire inflight state uncaught]; auto; counts.
      * apply Forall_app. split; [assumption|]. constructor; [|constructor]. split; assumption.
      * congruence.
  - (* captureImage *)
    pose proof (loaded_when_in_flight w i _ Hw Hi (or_intror eq_refl)) as Hloaded.
    pose proof (handled_continues _ _ _ _ releases_not_awaiting Hshape Hq) as Hk.
    pose proof (inv_processing w Hw) as Hproc.
    assert (Hbusy : isProcessing (state w) = true /\
                    count_from from_captureImage (remove_nth i (inflight w)) = 0%nat).
    { destruct (isProcessing (state w)); split; auto; lia. }
    destruct Hbusy as [Hbusy Hzero].
    destruct (run_handled keeps_flags releases from_captureImage (same_flags (retire i w))
                (keeps_flags_same (retire i w)) q Hk (retire i w) (same_flags_refl _))
      as [(l & w1 & -> & (Hi1 & Hu1 & Hr1 & Hm1 & Hp1) & ->)
         |(p' & w1 & Hp' & Hh' & (Hi1 & Hu1 & Hr1 & Hm1 & Hp1) & ->)];
      cbn [run perform].
    + constructor; cbn [apply_action state inflight uncaught set_state
                        modelsLoaded isProcessing referenceDescriptor capturedDescriptor];
        rewrite ?Hi1, ?Hu1, ?Hm1; cbn [retire inflight state uncaught]; auto; try congruence.
      * intros ?. pose proof (inv_loaded w Hw Hloaded). lia.
      * pose proof (inv_loading_once w Hw). lia.
    + constructor; cbn [suspend state inflight uncaught];
        rewrite ?Hi1, ?Hu1, ?Hm1, ?Hp1; cbn [retire inflight state uncaught]; auto;
        try congruence.
      * apply Forall_app. split; [assumption|]. constructor; [|constructor]. split; assumption.
      * rewrite Hbusy. counts.
      * intros ?. pose proof (inv_loaded w Hw Hloaded). counts.
      * pose proof (inv_loading_once w Hw). counts.
Qed.

Lemma performFaceMatch_one_effect (s : State) :
  exists msg, performFaceMatch s = perform (setMatchResult msg).
Proof.
  unfold performFaceMatch.
  destruct (referenceDescriptor s); [destruct (capturedDescriptor s)|]; eexists; reflexivity.
Qed.

(** Every event keeps the invariant. *)
Lemma invariant_step (e : event) (w : World) : invariant w -> invariant (step e w).
Proof.
  intros Hw. destruct e as [file imageUrl|dom| | |i|i r|i r|i r]; unfold step.
  - (* the file input *)
    destruct file as [f|]; [|exact Hw].
    destruct (modelsLoaded (state w)) eqn:Hloaded;
      [|unfold handleImageUpload; rewrite Hloaded; exact Hw].
    destruct (run_handled keeps_flags returns from_handleImageUpload (same_flags w)
                (keeps_flags_same w) _
                (handleImageUpload_shape (state w) (Some f) imageUrl) w (same_flags_refl _))
      as [(l & w1 & -> & (Hi1 & Hu1 & Hr1 & Hm1 & Hp1) & ->)
         |(p' & w1 & Hp' & Hh' & (Hi1 & Hu1 & Hr1 & Hm1 & Hp1) & ->)];
      cbn [run].
    + apply (invariant_frame w); rewrite ?Hi1, ?Hu1, ?Hm1, ?Hp1; auto.
      * apply (inv_uncaught w Hw).
      * apply (inv_tasks w Hw).
      * congruence.
    + apply (invariant_frame w); cbn [suspend inflight state uncaught];
        rewrite ?Hi1, ?Hu1, ?Hm1, ?Hp1; auto; counts.
      * apply (inv_uncaught w Hw).
      * apply Forall_app. split; [apply (inv_tasks w Hw)|].
        constructor; [|constructor]. split; assumption.
      * congruence.
  - (* the capture button *)
    cbn [render capture_disabled].
    destruct (isProcessing (state w)) eqn:Hidle; [exact Hw|].
    destruct (captureImage_shape (state w) (refs w) dom) as [->|(k & -> & Hk & Hloaded)];
      [exact Hw|].
    cbn [run].
    pose proof (inv_processing w Hw) as Hzero. rewrite Hidle in Hzero.
    set (wa := apply_action (setIsProcessing true) w).
    destruct (run_handled keeps_flags releases from_captureImage (same_flags wa)
                (keeps_flags_same wa) k Hk wa (same_flags_refl _))
      as [(l & w1 & -> & (Hi1 & Hu1 & Hr1 & Hm1 & Hp1) & ->)
         |(p' & w1 & Hp' & Hh' & (Hi1 & Hu1 & Hr1 & Hm1 & Hp1) & ->)];
      cbn [run perform].
    + apply (invariant_frame w);
        cbn [apply_action state inflight uncaught set_state modelsLoaded isProcessing
             referenceDescriptor capturedDescriptor];
        rewrite ?Hi1, ?Hu1, ?Hm1; subst wa;
        cbn [apply_action state inflight uncaught set_state modelsLoaded isProcessing];
        auto; try congruence.
      * apply (inv_uncaught w Hw).
      * apply (inv_tasks w Hw).
    + constructor; cbn [suspend state inflight uncaught];
        rewrite ?Hi1, ?Hu1, ?Hm1, ?Hp1; subst wa;
        cbn [apply_action state inflight uncaught set_state modelsLoaded isProcessing].
      * apply (inv_uncaught w Hw).
      * apply Forall_app. split; [apply (inv_tasks w Hw)|].
        constructor; [|constructor]. split; assumption.
      * counts.
      * congruence.
      * intros ?. pose proof (inv_loaded w Hw Hloaded). counts.
      * pose proof (inv_loading_once w Hw). counts.
  - (* the compare button *)
    destruct (_ && _); [|exact Hw].
    destruct (performFaceMatch_one_effect (state w)) as [msg ->]. cbn [run perform].
    apply (invariant_frame w); cbn [apply_action state inflight uncaught set_state
      modelsLoaded isProcessing referenceDescriptor capturedDescriptor]; auto.
    + apply (inv_uncaught w Hw).
    + apply (inv_tasks w Hw).
    + intros Hm. destruct (inv_not_loaded w Hw Hm) as (? & ? & ? & ?). auto.
  - (* the reset button *)
    destruct (reset_rendered _); [|exact Hw].
    apply (invariant_frame w); cbn; auto.
    + apply (inv_uncaught w Hw).
    + apply (inv_tasks w Hw).
    + intros Hm. destruct (inv_not_loaded w Hw Hm) as (? & ? & ? & ?). auto.
  - destruct (nth_error (inflight w) i) as [[o [a|err|a k|src k|img k|k|k]]|] eqn:Hi;
      try exact Hw.
    apply (invariant_resume w i _ k Hw Hi). reflexivity.
  - destruct (nth_error (inflight w) i) as [[o [a|err|a k|src k|img k|k|k]]|] eqn:Hi;
      try exact Hw.
    apply (invariant_resume w i _ (k r) Hw Hi). now exists r.
  - destruct (nth_error (inflight w) i) as [[o [a|err|a k|src k|img k|k|k]]|] eqn:Hi;
      try exact Hw.
    apply (invariant_resume w i _ (k r) Hw Hi). now exists r.
  - destruct (nth_error (inflight w) i) as [[o [a|err|a k|src k|img k|k|k]]|] eqn:Hi;
      try exact Hw.
    apply (invariant_resume w i _ (k r) Hw Hi). now exists r.
Qed.

Lemma invariant_steps (es : list event) (w : World) : invariant w -> invariant (steps es w).
Proof.
  revert w. induction es as [|e es IH]; intros w Hw; [exact Hw|].
  apply IH. now apply invariant_step.
Qed.

Lemma invariant_mounted (video : HTMLVideoElement) (canvas : HTMLCanvasElement) :
  invariant (mounted video canvas).
Proof.
  constructor; cbn; try reflexivity; try discriminate; try lia; [|tauto].
  constructor; [|constructor; [|constructor]]; split; try reflexivity.
  cbn. shape.
Qed.

Lemma steps_app (es1 es2 : list event) (w : World) :
  steps (es1 ++ es2) w = steps es2 (steps es1 w).
Proof.
  unfold steps. apply fold_left_app.
Qed.

(** *** Gating *)

(** C5, as the code has it.  The flag [isProcessing] is up exactly while a
    capture is suspended; the capture button and the compare button are
    disabled for that time, so clicks on them start nothing. *)
Theorem capture_gates_capture_and_compare
    (video : HTMLVideoElement) (canvas : HTMLCanvasElement) (es : list event) :
  let w := steps es (mounted video canvas) in
  (capture_in_flight w = true <-> isProcessing (state w) = true) /\
  (capture_in_flight w = true ->
   capture_disabled (render (state w)) = true /\
   compare_disabled (render (state w)) = true /\
   (forall dom, step (click_capture dom) w = w) /\
   step click_compare w = w).
Proof.
  intros w.
  assert (Hw : invariant w) by (apply invariant_steps, invariant_mounted).
  assert (Hiff : capture_in_flight w = true <-> isProcessing (state w) = true).
  { unfold capture_in_flight. rewrite existsb_count, (inv_processing w Hw).
    destruct (isProcessing (state w)); split; intros; (lia || congruence). }
  split; [exact Hiff|]. intros Hc. apply Hiff in Hc.
  unfold step. cbn [render capture_disabled compare_disabled compare_rendered].
  rewrite Hc. cbn [orb negb]. rewrite andb_false_r. auto.
Qed.

(** *** A failed load of the models *)

Lemma never_loaded_resume (w : World) (i : nat) (t : Task) (q : Async unit) :
  invariant w ->
  modelsLoaded (state w) = false ->
  count_from from_loadModels (inflight w) = 0%nat ->
  nth_error (inflight w) i = Some t ->
  continues (task_body t) q ->
  let w' := run (task_origin t) q (retire i w) in
  modelsLoaded (state w') = false /\ count_from from_loadModels (inflight w') = 0%nat.
Proof.
  intros Hw Hm Hc Hi Hq.
  pose proof (task_wf_lookup w i t Hw Hi) as [Haw Hshape].
  pose proof (count_from_remove from_loadModels _ i t Hi) as Hcl.
  destruct (task_origin t) eqn:Ho; try contradiction.
  - pose proof (count_from_lookup _ _ _ _ Hi Ho). lia.
  - pose proof (handled_continues _ _ _ _ returns_not_awaiting Hshape Hq) as Hk.
    destruct (run_handled silent returns from_startVideo (same_state (retire i w))
                (silent_same (retire i w)) q Hk (retire i w) (same_state_refl _))
      as [(l & w1 & -> & (Hi1 & Hu1 & Hr1 & Hs1) & ->)|(p' & w1 & Hp' & Hh' & (Hi1 & Hu1 & Hr1 & Hs1) & ->)];
      cbn [run suspend inflight state]; rewrite ?Hi1, ?Hs1; cbn [retire inflight state];
      split; auto; counts.
  - pose proof (loaded_when_in_flight w i _ Hw Hi (or_introl Ho)). congruence.
  - pose proof (loaded_when_in_flight w i _ Hw Hi (or_intror Ho)). congruence.
Qed.

Lemma never_loaded_step (e : event) (w : World) :
  invariant w ->
  modelsLoaded (state w) = false ->
  count_from from_loadModels (inflight w) = 0%nat ->
  modelsLoaded (state (step e w)) = false /\
  count_from from_loadModels (inflight (step e w)) = 0%nat.
Proof.
  intros Hw Hm Hc.
  destruct e as [file imageUrl|dom| | |i|i r|i r|i r]; unfold step.
  - unfold handleImageUpload. rewrite Hm. destruct file; auto.
  - destruct (capture_disabled _); auto.
    destruct (captureImage_shape (state w) (refs w) dom) as [->|(k & _ & _ & Hl)];
      [auto|congruence].
  - destruct (_ && _); auto.
    destruct (performFaceMatch_one_effect (state w)) as [msg ->]. auto.
  - destruct (reset_rendered _); auto.
  - destruct (nth_error (inflight w) i) as [[o [a|err|a k|src k|img k|k|k]]|] eqn:Hi; auto.
    apply (never_loaded_resume w i _ k Hw Hm Hc Hi). reflexivity.
  - destruct (nth_error (inflight w) i) as [[o [a|err|a k|src k|img k|k|k]]|] eqn:Hi; auto.
    apply (never_loaded_resume w i _ (k r) Hw Hm Hc Hi). now exists r.
  - destruct (nth_error (inflight w) i) as [[o [a|err|a k|src k|img k|k|k]]|] eqn:Hi; auto.
    apply (never_loaded_resume w i _ (k r) Hw Hm Hc Hi). now exists r.
  - destruct (nth_error (inflight w) i) as [[o [a|err|a k|src k|img k|k|k]]|] eqn:Hi; auto.
    apply (never_loaded_resume w i _ (k r) Hw Hm Hc Hi). now exists r.
Qed.

Lemma never_loaded_steps (es : list event) (w : World) :
  invariant w ->
  modelsLoaded (state w) = false ->
  count_from from_loadModels (inflight w) = 0%nat ->
  modelsLoaded (state (steps es w)) = false.
Proof.
  revert w. induction es as [|e es IH]; intros w Hw Hm Hc; [exact Hm|].
  destruct (never_loaded_step e w Hw Hm Hc) as [Hm' Hc'].
  apply (IH (step e w)); auto. now apply invariant_step.
Qed.

(** C6.  Once the promise of [loadModels] is rejected, whatever happened
    before and whatever happens after, [modelsLoaded] is false, the loading
    notice is rendered, both descriptors are null, no upload and no capture
    is suspended, and the upload and capture handlers return at their
    guard. *)
Theorem load_failure_is_permanent
    (video : HTMLVideoElement) (canvas : HTMLCanvasElement)
    (es1 es2 : list event) (i : nat) (reason : Error) :
  let w1 := steps es1 (mounted video canvas) in
  (exists t, nth_error (inflight w1) i = Some t /\ task_origin t = from_loadModels) ->
  let w := steps es2 (step (models_settled i (Rejected reason)) w1) in
  modelsLoaded (state w) = false /\
  loading_notice (render (state w)) = true /\
  referenceDescriptor (state w) = None /\
  capturedDescriptor (state w) = None /\
  user_operation_in_flight w = false /\
  (forall file imageUrl, step (change_file_input file imageUrl) w = w) /\
  (forall dom, step (click_capture dom) w = w).
Proof.
  intros w1 (t & Hi & Ho) w.
  assert (Hw1 : invariant w1) by (apply invariant_steps, invariant_mounted).
  set (w2 := step (models_settled i (Rejected reason)) w1) in *.
  assert (Hw2 : invariant w2) by (now apply invariant_step).
  assert (Hdead : modelsLoaded (state w2) = false /\
                  count_from from_loadModels (inflight w2) = 0%nat).
  { pose proof (task_wf_lookup w1 i t Hw1 Hi) as [_ Hshape]. rewrite Ho in Hshape.
    pose proof (count_from_lookup _ _ _ _ Hi Ho) as Hge.
    pose proof (inv_loading_once w1 Hw1) as Hle.
    pose proof (count_from_remove from_loadModels _ i t Hi) as Hcl.
    unfold is_from in Hcl. rewrite Ho in Hcl. cbn [origin_eqb] in Hcl.
    assert (Hm : modelsLoaded (state w1) = false).
    { destruct (modelsLoaded (state w1)) eqn:E; [|reflexivity].
      pose proof (inv_loaded w1 Hw1 E). lia. }
    subst w2. unfold step. rewrite Hi. destruct t as [o p].
    cbn [task_origin task_body] in *. subst o p. cbn. fold (count_from from_loadModels (remove_nth i (inflight w1))).
    split; [exact Hm|lia]. }
  destruct Hdead as [Hm2 Hc2].
  assert (Hw : invariant w) by (now apply invariant_steps).
  assert (Hm : modelsLoaded (state w) = false) by (now apply never_loaded_steps).
  destruct (inv_not_loaded w Hw Hm) as (Hr & Hcd & Hu & Hcc).
  repeat split; auto.
  - cbn [render loading_notice]. now rewrite Hm.
  - unfold user_operation_in_flight. destruct (existsb _ _) eqn:E; [|reflexivity].
    apply existsb_exists in E. destruct E as (t' & Hin & Hor).
    apply In_nth_error in Hin. destruct Hin as [j Hj].
    apply orb_prop in Hor. unfold is_from in Hor.
    destruct Hor as [Hor|Hor]; apply origin_eqb_eq in Hor;
      symmetry in Hor; pose proof (count_from_lookup _ _ _ _ Hj Hor); lia.
  - intros file imageUrl. unfold step, handleImageUpload. rewrite Hm.
    destruct file; reflexivity.
  - intros dom. unfold step. destruct (capture_disabled _); [reflexivity|].
    destruct (captureImage_shape (state w) (refs w) dom) as [->|(k & _ & _ & Hl)];
      [reflexivity|congruence].
Qed.

(** *** No face found *)

Lemma handleImageUpload_never_throws (s : State) (file : option File) (imageUrl : string) :
  never_throws (handleImageUpload s file imageUrl).
Proof.
  unfold handleImageUpload. destruct file; [destruct (modelsLoaded s)|]; simpl; auto.
  intros [[d|]|e]; simpl; auto.
Qed.

Lemma captureImage_never_throws (s : State) (r : Refs) (dom : CaptureDom) :
  never_throws (captureImage s r dom).
Proof.
  unfold captureImage.
  destruct (videoRef r); simpl; auto. destruct (canvasRef r); simpl; auto.
  destruct (modelsLoaded s); simpl; auto. destruct (getContext_2d dom); simpl; auto.
  intros [[d|]|e]; simpl; auto.
Qed.

(** C8.  When the detection resolves to no face, the handler that awaited
    it logs the fact, writes its message in [matchResult] and ends: the
    list of suspended handlers is as before the interaction (nothing is
    awaited again) and no exception escapes, here or on any other path of
    the two handlers. *)
Theorem no_face_is_a_message
    (w : World) (file : File) (imageUrl : string) (dom : CaptureDom)
    (video : HTMLVideoElement) (canvas : HTMLCanvasElement) :
  modelsLoaded (state w) = true ->
  let n := List.length (inflight w) in
  (let w' := steps [change_file_input (Some file) imageUrl; image_loaded n;
                    detection_settled n (Fulfilled None)] w in
   matchResult (state w') = "No face detected in the uploaded image" /\
   console w' = (console w ++ [errored "No face detected in the reference image" None])%list /\
   inflight w' = inflight w /\
   uncaught w' = uncaught w) /\
  (refs w = {| videoRef := Some video; canvasRef := Some canvas |} ->
   isProcessing (state w) = false ->
   getContext_2d dom = true ->
   let w' := steps [click_capture dom; image_loaded n;
                    detection_settled n (Fulfilled None)] w in
   matchResult (state w') = "No face detected in captured image" /\
   console w' = (console w ++ [errored "No face detected in captured image" None])%list /\
   inflight w' = inflight w /\
   uncaught w' = uncaught w /\
   isProcessing (state w') = false) /\
  (forall s f u, never_throws (handleImageUpload s f u)) /\
  (forall s r d, never_throws (captureImage s r d)).
Proof.
  intros Hm n. split; [|split; [|split]].
  - unfold steps. cbn [fold_left].
    unfold step, handleImageUpload. rewrite Hm. simpl. subst n.
    repeat (progress (rewrite ?nth_error_end, ?remove_nth_end; simpl)).
    repeat split.
  - intros Hrefs Hidle Hctx.
    unfold steps. cbn [fold_left].
    unfold step. cbn [render capture_disabled]. rewrite Hidle.
    unfold captureImage. rewrite Hrefs, Hm, Hctx. simpl. subst n.
    repeat (progress (rewrite ?nth_error_end, ?remove_nth_end; simpl)).
    repeat split.
  - apply handleImageUpload_never_throws.
  - apply captureImage_never_throws.
Qed.

(** *** A second upload without a face *)

(** C9.  With a reference descriptor stored, an upload whose detection
    finds no face replaces [referenceImage] and leaves the descriptor as
    it was; a comparison made then measures the distance from that old
    descriptor. *)
Theorem stale_reference_descriptor
    (w : World) (old : Float32Array) (file : File) (imageUrl : string) :
  modelsLoaded (state w) = true ->
  referenceDescriptor (state w) = Some old ->
  let n := List.length (inflight w) in
  let w' := steps [change_file_input (Some file) imageUrl; image_loaded n;
                   detection_settled n (Fulfilled None)] w in
  referenceImage (state w') = Some imageUrl /\
  referenceDescriptor (state w') = Some old /\
  capturedDescriptor (state w') = capturedDescriptor (state w) /\
  forall captured,
    capturedDescriptor (state w) = Some captured ->
    matchResult (state (run from_performFaceMatch (performFaceMatch (state w')) w')) =
      result_message (euclideanDistance old captured) /\
    (isProcessing (state w) = false -> compare_disabled (render (state w')) = false).
Proof.
  intros Hm Hold n w'.
  assert (Hstate : state w' =
            set_state (setMatchResult "No face detected in the uploaded image")
              (set_state (setReferenceImage (Some imageUrl)) (state w))).
  { subst w'. unfold steps. cbn [fold_left].
    unfold step, handleImageUpload. rewrite Hm. simpl. subst n.
    repeat (progress (rewrite ?nth_error_end, ?remove_nth_end; simpl)).
    reflexivity. }
  rewrite Hstate. cbn [set_state referenceImage referenceDescriptor capturedDescriptor].
  repeat split; auto.
  - unfold performFaceMatch.
    cbn [set_state referenceDescriptor capturedDescriptor]. rewrite Hold, H. reflexivity.
  - intros Hidle. cbn [render compare_disabled set_state isProcessing referenceDescriptor
                       capturedDescriptor]. now rewrite Hidle, Hold, H.
Qed.

(** *** The flag of [captureImage] *)

(** X21.  Past its guard, [captureImage] raises [isProcessing] and, on
    every path on which the promises it awaits settle (a context that
    cannot be had, a detection that is rejected, finds no face or finds
    one), ends with the flag down and the capture button enabled; no path
    ends by an exception, and such a path ends once the two promises have
    settled.  Whether the first of them, the load of the frame, settles
    at all is not said here. *)
Theorem captureImage_lowers_the_flag
    (s : State) (r : Refs) (dom : CaptureDom)
    (video : HTMLVideoElement) (canvas : HTMLCanvasElement) :
  videoRef r = Some video ->
  canvasRef r = Some canvas ->
  modelsLoaded s = true ->
  (exists k, captureImage s r dom = Do (setIsProcessing true) k) /\
  on_every_path
    (fun s' => isProcessing s' = false /\ capture_disabled (render s') = false)
    (captureImage s r dom) s /\
  never_throws (captureImage s r dom) /\
  ends_within (captureImage s r dom) 2.
Proof.
  intros Hv Hc Hm. unfold captureImage. rewrite Hv, Hc, Hm. cbn [negb].
  destruct (getContext_2d dom); simpl.
  - split; [eexists; reflexivity|]. split; [|split].
    + intros s0 [[d|]|e] s'; simpl; auto.
    + intros [[d|]|e]; simpl; auto.
    + intros [[d|]|e]; simpl; auto.
  - split; [eexists; reflexivity|]. simpl. auto.
Qed.

End EventLoop.

(** ** The statements on concrete inputs *)

Lemma performFaceMatch_classifies_witness :
  (referenceDescriptor (state (Sample.both_faces (of_decimal 3 1))) = Some [of_Z 1] /\
   capturedDescriptor (state (Sample.both_faces (of_decimal 3 1))) = Some [of_Z 0] /\
   result_green
     (render
        (state
           (run from_performFaceMatch
              (@performFaceMatch (Sample.runtime (of_decimal 3 1))
                 (state (Sample.both_faces (of_decimal 3 1))))
              (Sample.both_faces (of_decimal 3 1))))) = true) /\
  (referenceDescriptor (state (Sample.both_faces (of_decimal 5 1))) = Some [of_Z 1] /\
   capturedDescriptor (state (Sample.both_faces (of_decimal 5 1))) = Some [of_Z 0] /\
   result_green
     (render
        (state
           (run from_performFaceMatch
              (@performFaceMatch (Sample.runtime (of_decimal 5 1))
                 (state (Sample.both_faces (of_decimal 5 1))))
              (Sample.both_faces (of_decimal 5 1))))) = false).
Proof.
  split; (split; [reflexivity|]; split; [reflexivity|]).
  - destruct (@performFaceMatch_classifies (Sample.runtime (of_decimal 3 1))
                (Sample.both_faces (of_decimal 3 1)) [of_Z 1] [of_Z 0] eq_refl eq_refl)
      as (_ & _ & _ & H).
    rewrite H. vm_compute. reflexivity.
  - destruct (@performFaceMatch_classifies (Sample.runtime (of_decimal 5 1))
                (Sample.both_faces (of_decimal 5 1)) [of_Z 1] [of_Z 0] eq_refl eq_refl)
      as (_ & _ & _ & H).
    rewrite H. vm_compute. reflexivity.
Defined.

Lemma performFaceMatch_similarity_witness :
  referenceDescriptor (state (Sample.both_faces (of_decimal 3 1))) = Some [of_Z 1] /\
  capturedDescriptor (state (Sample.both_faces (of_decimal 3 1))) = Some [of_Z 0] /\
  isNaN (of_decimal 3 1) = false /\
  within (of_Z 0) (of_Z 100) (similarity (of_decimal 3 1)).
Proof.
  split; [reflexivity|]. split; [reflexivity|]. split; [reflexivity|].
  destruct (@performFaceMatch_similarity (Sample.runtime (of_decimal 3 1))
              (Sample.both_faces (of_decimal 3 1)) [of_Z 1] [of_Z 0] eq_refl eq_refl)
    as (_ & _ & H).
  exact (H eq_refl).
Defined.

Lemma performFaceMatch_examples_witness :
  referenceDescriptor (state (Sample.both_faces (of_decimal 0 1))) = Some [of_Z 1] /\
  capturedDescriptor (state (Sample.both_faces (of_decimal 0 1))) = Some [of_Z 0] /\
  similarity (of_decimal 0 1) = of_Z 100 /\
  similarity (of_decimal 5 1) = of_Z 50 /\
  similarity (of_decimal 12 1) = of_Z 0.
Proof.
  split; [reflexivity|]. split; [reflexivity|].
  destruct (@performFaceMatch_examples (Sample.runtime (of_decimal 0 1))
              (Sample.both_faces (of_decimal 0 1)) [of_Z 1] [of_Z 0] eq_refl eq_refl)
    as (H0 & _ & _).
  destruct (@performFaceMatch_examples (Sample.runtime (of_decimal 5 1))
              (Sample.both_faces (of_decimal 5 1)) [of_Z 1] [of_Z 0] eq_refl eq_refl)
    as (_ & H5 & _).
  destruct (@performFaceMatch_examples (Sample.runtime (of_decimal 12 1))
              (Sample.both_faces (of_decimal 12 1)) [of_Z 1] [of_Z 0] eq_refl eq_refl)
    as (_ & _ & H12).
  split; [exact (proj1 (H0 eq_refl))|].
  split; [exact (proj1 (H5 eq_refl))|exact (proj1 (H12 eq_refl))].
Defined.

Lemma performFaceMatch_blocked_witness :
  (referenceDescriptor (state (Sample.reference_only (of_Z 0))) = None \/
   capturedDescriptor (state (Sample.reference_only (of_Z 0))) = None) /\
  @step (Sample.runtime (of_Z 0)) click_compare
    (Sample.reference_only (of_Z 0)) =
  Sample.reference_only (of_Z 0).
Proof.
  split; [right; reflexivity|].
  destruct (@performFaceMatch_blocked (Sample.runtime (of_Z 0))
              (Sample.reference_only (of_Z 0)) (or_intror eq_refl))
    as (_ & _ & H).
  exact H.
Defined.

(** C3 as worded fails: the message is the same with the reference
    missing and with the capture missing, so nothing reads the missing
    input off it. *)
Lemma diagnostic_names_no_input :
  ~ names_missing_input (Sample.runtime (of_Z 0)).
Proof.
  intros [names H].
  pose proof (H (Sample.reference_only (of_Z 0)) missing_captured eq_refl) as H1.
  pose proof (H (Sample.capture_only (of_Z 0)) missing_reference eq_refl) as H2.
  vm_compute in H1, H2. rewrite H1 in H2. discriminate.
Qed.

(** C5 as worded fails: with an upload suspended on its detection, the
    file input takes a second file and a second upload starts. *)
Lemma upload_is_not_gated :
  ~ gated_while_in_flight (Sample.runtime (of_Z 0)).
Proof.
  intros H.
  pose proof (H Sample.video Sample.canvas
                [models_settled 0 (Fulfilled tt);
                 change_file_input (Some Sample.photo) "blob:reference"]
                (change_file_input (Some Sample.photo) "blob:second")
                eq_refl eq_refl) as E.
  apply (f_equal (fun w => List.length (inflight w))) in E.
  vm_compute in E. discriminate.
Qed.

Lemma capture_gates_capture_and_compare_witness :
  capture_in_flight
    (@steps (Sample.runtime (of_Z 0))
       [models_settled 0 (Fulfilled tt); click_capture Sample.dom]
       (mounted Sample.video Sample.canvas)) = true /\
  isProcessing
    (state
       (@steps (Sample.runtime (of_Z 0))
          [models_settled 0 (Fulfilled tt); click_capture Sample.dom]
          (mounted Sample.video Sample.canvas))) = true /\
  capture_disabled
    (render
       (state
          (@steps (Sample.runtime (of_Z 0))
             [models_settled 0 (Fulfilled tt); click_capture Sample.dom]
             (mounted Sample.video Sample.canvas)))) = true.
Proof.
  split; [reflexivity|].
  destruct (@capture_gates_capture_and_compare (Sample.runtime (of_Z 0))
              Sample.video Sample.canvas
              [models_settled 0 (Fulfilled tt); click_capture Sample.dom])
    as [Hiff Hgate].
  split; [exact (proj1 Hiff eq_refl)|exact (proj1 (Hgate eq_refl))].
Defined.

Lemma load_failure_is_permanent_witness :
  (exists t,
     nth_error
       (inflight (@steps (Sample.runtime (of_Z 0)) []
                    (mounted Sample.video Sample.canvas))) 0 = Some t /\
     task_origin t = from_loadModels) /\
  modelsLoaded
    (state
       (@steps (Sample.runtime (of_Z 0))
          [change_file_input (Some Sample.photo) "blob:reference";
           click_capture Sample.dom]
          (@step (Sample.runtime (of_Z 0))
             (models_settled 0 (Rejected "404"))
             (@steps (Sample.runtime (of_Z 0)) []
                (mounted Sample.video Sample.canvas))))) = false.
Proof.
  split; [eexists; split; reflexivity|].
  refine (proj1 (@load_failure_is_permanent (Sample.runtime (of_Z 0))
                   Sample.video Sample.canvas []
                   [change_file_input (Some Sample.photo) "blob:reference";
                    click_capture Sample.dom]
                   0 "404" _)).
  eexists; split; reflexivity.
Defined.

Lemma no_face_is_a_message_witness :
  modelsLoaded (state (Sample.ready (of_Z 0))) = true /\
  matchResult
    (state
       (@steps (Sample.runtime (of_Z 0))
          [change_file_input (Some Sample.photo) "blob:reference";
           image_loaded (List.length (inflight (Sample.ready (of_Z 0))));
           detection_settled (List.length (inflight (Sample.ready (of_Z 0))))
             (Fulfilled None)]
          (Sample.ready (of_Z 0)))) = "No face detected in the uploaded image".
Proof.
  split; [reflexivity|].
  destruct (@no_face_is_a_message (Sample.runtime (of_Z 0))
              (Sample.ready (of_Z 0)) Sample.photo "blob:reference" Sample.dom
              Sample.video Sample.canvas eq_refl)
    as ((H & _) & _).
  exact H.
Defined.

Lemma stale_reference_descriptor_witness :
  modelsLoaded (state (Sample.both_faces (of_decimal 3 1))) = true /\
  referenceDescriptor (state (Sample.both_faces (of_decimal 3 1))) = Some [of_Z 1] /\
  referenceImage
    (state
       (@steps (Sample.runtime (of_decimal 3 1))
          [change_file_input (Some Sample.photo) "blob:second";
           image_loaded (List.length (inflight (Sample.both_faces (of_decimal 3 1))));
           detection_settled (List.length (inflight (Sample.both_faces (of_decimal 3 1))))
             (Fulfilled None)]
          (Sample.both_faces (of_decimal 3 1)))) = Some "blob:second" /\
  referenceDescriptor
    (state
       (@steps (Sample.runtime (of_decimal 3 1))
          [change_file_input (Some Sample.photo) "blob:second";
           image_loaded (List.length (inflight (Sample.both_faces (of_decimal 3 1))));
           detection_settled (List.length (inflight (Sample.both_faces (of_decimal 3 1))))
             (Fulfilled None)]
          (Sample.both_faces (of_decimal 3 1)))) = Some [of_Z 1].
Proof.
  split; [reflexivity|]. split; [reflexivity|].
  destruct (@stale_reference_descriptor (Sample.runtime (of_decimal 3 1))
              (Sample.both_faces (of_decimal 3 1)) [of_Z 1] Sample.photo "blob:second"
              eq_refl eq_refl)
    as (Himg & Hdesc & _).
  split; [exact Himg|exact Hdesc].
Defined.

Lemma captureImage_lowers_the_flag_witness :
  videoRef (refs (Sample.ready (of_Z 0))) = Some Sample.video /\
  canvasRef (refs (Sample.ready (of_Z 0))) = Some Sample.canvas /\
  modelsLoaded (state (Sample.ready (of_Z 0))) = true /\
  on_every_path
    (fun s' => isProcessing s' = false /\ capture_disabled (render s') = false)
    (captureImage (state (Sample.ready (of_Z 0))) (refs (Sample.ready (of_Z 0))) Sample.dom)
    (state (Sample.ready (of_Z 0))).
Proof.
  split; [reflexivity|]. split; [reflexivity|]. split; [reflexivity|].
  destruct (captureImage_lowers_the_flag (state (Sample.ready (of_Z 0)))
              (refs (Sample.ready (of_Z 0))) Sample.dom Sample.video Sample.canvas
              eq_refl eq_refl eq_refl)
    as (_ & H & _).
  exact H.
Defined.

(** * Further properties *)

Section Paths.

Context {runtime : Runtime}.

Lemma nth_error_here {A : Type} (l l' : list A) (x : A) :
  nth_error (l ++ x :: l') (List.length l) = Some x.
Proof. induction l; simpl; auto. Qed.

Lemma nth_error_next {A : Type} (l l' : list A) (x y : A) :
  nth_error (l ++ x :: y :: l') (S (List.length l)) = Some y.
Proof. induction l; simpl; auto. Qed.

Lemma remove_nth_here {A : Type} (l l' : list A) (x : A) :
  remove_nth (List.length l) (l ++ x :: l') = (l ++ l')%list.
Proof. induction l as [|a l IH]; [reflexivity|]. simpl. f_equal. exact IH. Qed.

Lemma remove_nth_next {A : Type} (l l' : list A) (x y : A) :
  remove_nth (S (List.length l)) (l ++ x :: y :: l') = (l ++ x :: l')%list.
Proof. induction l as [|a l IH]; [reflexivity|]. simpl. f_equal. exact IH. Qed.

(** Runs the innermost event of the goal, with [tac] to settle its
    guards, and puts the resulting world in its place. *)
Ltac advance tac :=
  match goal with
  | |- context [step ?e ?w0] =>
      lazymatch w0 with
      | context [step _ _] => fail
      | _ =>
          let x := fresh "w" in
          let E := fresh "E" in
          remember (step e w0) as x eqn:E;
          unfold step, handleImageUpload, captureImage in E;
          cbn [render capture_disabled reset_rendered truthy orb
               state inflight suspend apply_action retire set_state
               modelsLoaded isProcessing referenceImage capturedImage refs] in E;
          tac E;
          repeat first
            [ progress cbn [app] in E
            | rewrite remove_nth_here in E | rewrite remove_nth_next in E
            | rewrite app_nil_r in E | rewrite <- app_assoc in E
            | rewrite nth_error_here in E | rewrite nth_error_next in E ];
          simpl in E;
          subst x
      end
  end.

Ltac no_guard E := idtac.

Ltac arrive :=
  cbn [state refs console revoked srcObject inflight uncaught
       suspend apply_action retire set_state
       modelsLoaded referenceImage referenceDescriptor matchResult
       capturedImage capturedDescriptor isProcessing];
  repeat first
    [ progress cbn [app]
    | rewrite remove_nth_here | rewrite remove_nth_next
    | rewrite app_nil_r | rewrite <- app_assoc ];
  cbn.

(** X1.  An upload whose detection finds a face stores the image URL and
    the descriptor and changes nothing else of the state (a message shown
    before stays); it ends with the URL revoked, while the preview still
    points at it. *)
Theorem upload_with_a_face
    (w : World) (file : File) (imageUrl : string) (d : FaceDetection) :
  modelsLoaded (state w) = true ->
  let n := List.length (inflight w) in
  let w' := steps [change_file_input (Some file) imageUrl; image_loaded n;
                   detection_settled n (Fulfilled (Some d))] w in
  state w' =
    set_state (setReferenceDescriptor (Some (descriptor d)))
      (set_state (setReferenceImage (Some imageUrl)) (state w)) /\
  reference_preview (render (state w')) =
    (if truthy (Some imageUrl) then Some imageUrl else None) /\
  revoked w' = (revoked w ++ [imageUrl])%list /\
  console w' = (console w ++ [logged "Reference face descriptor extracted"])%list /\
  inflight w' = inflight w /\
  uncaught w' = uncaught w.
Proof.
  intros Hm n. subst n. unfold steps. cbn [fold_left].
  advance ltac:(fun E => rewrite Hm in E).
  advance no_guard. advance no_guard.
  arrive. repeat split.
Qed.

(** X2.  An upload whose detection is rejected writes its error message,
    keeps the new image with the descriptor that was there before, and
    leaves the object URL unrevoked. *)
Theorem upload_with_a_rejected_detection
    (w : World) (file : File) (imageUrl : string) (reason : Error) :
  modelsLoaded (state w) = true ->
  let n := List.length (inflight w) in
  let w' := steps [change_file_input (Some file) imageUrl; image_loaded n;
                   detection_settled n (Rejected reason)] w in
  state w' =
    set_state (setMatchResult "Error processing the image")
      (set_state (setReferenceImage (Some imageUrl)) (state w)) /\
  referenceDescriptor (state w') = referenceDescriptor (state w) /\
  revoked w' = revoked w /\
  console w' =
    (console w ++ [errored "Error processing reference image:" (Some reason)])%list /\
  inflight w' = inflight w /\
  uncaught w' = uncaught w.
Proof.
  intros Hm n. subst n. unfold steps. cbn [fold_left].
  advance ltac:(fun E => rewrite Hm in E).
  advance no_guard. advance no_guard.
  arrive. repeat split.
Qed.

(** X3.  A capture whose detection finds a face stores the frame and the
    descriptor, ends with [isProcessing] false, and changes nothing else
    of the state. *)
Theorem capture_with_a_face
    (w : World) (dom : CaptureDom) (d : FaceDetection)
    (video : HTMLVideoElement) (canvas : HTMLCanvasElement) :
  modelsLoaded (state w) = true ->
  isProcessing (state w) = false ->
  refs w = {| videoRef := Some video; canvasRef := Some canvas |} ->
  getContext_2d dom = true ->
  let n := List.length (inflight w) in
  let w' := steps [click_capture dom; image_loaded n;
                   detection_settled n (Fulfilled (Some d))] w in
  state w' =
    set_state (setIsProcessing false)
      (set_state (setCapturedDescriptor (Some (descriptor d)))
         (set_state (setCapturedImage (Some (toDataURL dom))) (state w))) /\
  console w' = (console w ++ [logged "Captured face descriptor extracted"])%list /\
  inflight w' = inflight w /\
  uncaught w' = uncaught w.
Proof.
  intros Hm Hidle Hrefs Hctx n. subst n. unfold steps. cbn [fold_left].
  advance ltac:(fun E => rewrite Hidle, Hrefs, Hm, Hctx in E).
  advance no_guard. advance no_guard.
  arrive. repeat split.
Qed.

(** X4.  When the canvas gives no 2d context, the capture is over within
    the click: it awaits nothing, writes its error message, stores no
    frame and leaves [isProcessing] false. *)
Theorem capture_without_context
    (w : World) (dom : CaptureDom)
    (video : HTMLVideoElement) (canvas : HTMLCanvasElement) :
  modelsLoaded (state w) = true ->
  isProcessing (state w) = false ->
  refs w = {| videoRef := Some video; canvasRef := Some canvas |} ->
  getContext_2d dom = false ->
  let w' := step (click_capture dom) w in
  state w' = set_state (setMatchResult "Error processing the captured image") (state w) /\
  console w' =
    (console w ++
     [errored "Error processing captured image:" (Some "Could not get canvas context")])%list /\
  inflight w' = inflight w /\
  uncaught w' = uncaught w.
Proof.
  intros Hm Hidle Hrefs Hctx.
  unfold step. cbn [render capture_disabled]. rewrite Hidle.
  unfold captureImage. rewrite Hrefs, Hm, Hctx. simpl.
  repeat split. destruct (state w) as [ml ri rd mr ci cd ip]. simpl in *. now subst ip.
Qed.

(** X5.  A capture whose detection finds no face, or is rejected, shows
    the new frame and keeps the captured descriptor of the frame before;
    a comparison made then uses that old descriptor. *)
Theorem stale_captured_descriptor
    (w : World) (dom : CaptureDom) (old : Float32Array)
    (r : settled (option FaceDetection))
    (video : HTMLVideoElement) (canvas : HTMLCanvasElement) :
  modelsLoaded (state w) = true ->
  isProcessing (state w) = false ->
  refs w = {| videoRef := Some video; canvasRef := Some canvas |} ->
  getContext_2d dom = true ->
  capturedDescriptor (state w) = Some old ->
  (r = Fulfilled None \/ exists reason, r = Rejected reason) ->
  let n := List.length (inflight w) in
  let w' := steps [click_capture dom; image_loaded n; detection_settled n r] w in
  capturedImage (state w') = Some (toDataURL dom) /\
  capturedDescriptor (state w') = Some old /\
  isProcessing (state w') = false /\
  forall reference,
    referenceDescriptor (state w) = Some reference ->
    matchResult (state (run from_performFaceMatch (performFaceMatch (state w')) w')) =
      result_message (euclideanDistance reference old).
Proof.
  intros Hm Hidle Hrefs Hctx Hold Hr n.
  assert (Hstate :
    exists msg,
      state (steps [click_capture dom; image_loaded n; detection_settled n r] w) =
      set_state (setIsProcessing false)
        (set_state (setMatchResult msg)
           (set_state (setCapturedImage (Some (toDataURL dom)))
              (set_state (setIsProcessing true) (state w))))).
  { subst n. unfold steps. cbn [fold_left].
    advance ltac:(fun E => rewrite Hidle, Hrefs, Hm, Hctx in E).
    advance no_guard.
    destruct Hr as [->|[reason ->]]; advance no_guard; arrive; eexists; reflexivity. }
  destruct Hstate as [msg Hstate]. cbv zeta. rewrite Hstate.
  cbn [set_state capturedImage capturedDescriptor isProcessing].
  repeat split; auto.
  intros reference Href. unfold performFaceMatch.
  cbn [set_state referenceDescriptor capturedDescriptor]. rewrite Href, Hold. reflexivity.
Qed.

(** X6.  The reset does not cancel a detection that is under way: when it
    settles after the reset, its descriptor is stored with no image, and
    neither the compare button nor the reset button is rendered. *)
Theorem reset_keeps_the_pending_detection
    (w : World) (file : File) (imageUrl : string) (d : FaceDetection) :
  modelsLoaded (state w) = true ->
  truthy (Some imageUrl) = true ->
  let n := List.length (inflight w) in
  let w' := steps [change_file_input (Some file) imageUrl; image_loaded n;
                   click_reset;
                   detection_settled n (Fulfilled (Some d))] w in
  referenceImage (state w') = None /\
  capturedImage (state w') = None /\
  referenceDescriptor (state w') = Some (descriptor d) /\
  reset_rendered (render (state w')) = false /\
  compare_rendered (render (state w')) = false.
Proof.
  intros Hm Hurl n. subst n. destruct imageUrl as [|c url]; [discriminate|].
  unfold steps. cbn [fold_left].
  advance ltac:(fun E => rewrite Hm in E).
  advance no_guard. advance no_guard. advance no_guard.
  arrive. repeat split.
Qed.

(** X7.  Two uploads can be under way together, and the descriptor kept is
    that of the detection that settles last, not that of the image shown:
    with the detection of the first file settling after that of the second,
    the page shows the second image with the descriptor of the first. *)
Theorem last_settled_detection_wins
    (w : World) (file1 file2 : File) (url1 url2 : string) (d1 d2 : FaceDetection) :
  modelsLoaded (state w) = true ->
  let n := List.length (inflight w) in
  let w' := steps [change_file_input (Some file1) url1;
                   change_file_input (Some file2) url2;
                   image_loaded n; image_loaded n;
                   detection_settled (S n) (Fulfilled (Some d2));
                   detection_settled n (Fulfilled (Some d1))] w in
  referenceImage (state w') = Some url2 /\
  referenceDescriptor (state w') = Some (descriptor d1) /\
  inflight w' = inflight w /\
  uncaught w' = uncaught w.
Proof.
  intros Hm n. subst n. unfold steps. cbn [fold_left].
  advance ltac:(fun E => rewrite Hm in E).
  advance ltac:(fun E => rewrite Hm in E).
  advance no_guard. advance no_guard. advance no_guard. advance no_guard.
  arrive. repeat split.
Qed.

(** X13.  The outcome of [getUserMedia] never reaches the state of the
    component: fulfilled, the stream becomes the source of the video;
    rejected, the error is logged; either way the state, and with it every
    button, is as before. *)
Theorem startVideo_leaves_the_state
    (w : World) (i : nat) (r : Refs) (video : HTMLVideoElement)
    (outcome : settled MediaStream) :
  videoRef r = Some video ->
  nth_error (inflight w) i =
    Some {| task_origin := from_startVideo; task_body := startVideo r |} ->
  let w' := step (user_media_settled i outcome) w in
  state w' = state w /\
  inflight w' = remove_nth i (inflight w) /\
  uncaught w' = uncaught w /\
  match outcome with
  | Fulfilled stream => srcObject w' = Some stream /\ console w' = console w
  | Rejected reason =>
      srcObject w' = srcObject w /\
      console w' = (console w ++ [errored "Error accessing webcam:" (Some reason)])%list
  end.
Proof.
  intros Hv Hi. unfold startVideo in Hi. rewrite Hv in Hi. simpl in Hi.
  unfold step. rewrite Hi. destruct outcome as [stream|reason]; simpl; repeat split.
Qed.

End Paths.

Section Invariants.

Import JSNumberFacts StringFacts.

Context {runtime : Runtime}.

(** *** What the invariant of the event loop gives *)

(** X9.  At any time at most one capture is suspended, and at most one
    load of the models. *)
Theorem at_most_one_capture
    (video : HTMLVideoElement) (canvas : HTMLCanvasElement) (es : list event) :
  let w := steps es (mounted video canvas) in
  (count_from from_captureImage (inflight w) <= 1)%nat /\
  (count_from from_loadModels (inflight w) <= 1)%nat.
Proof.
  intros w.
  assert (Hw : invariant w) by (apply invariant_steps, invariant_mounted).
  split; [|apply (inv_loading_once w Hw)].
  rewrite (inv_processing w Hw). destruct (isProcessing (state w)); lia.
Qed.

(** X10.  Outside the comparison no exception escapes a handler.
    [performFaceMatch] is left aside: it is the one handler that is not
    wrapped in a [try], and it calls the distance function of the
    library.  No path of the bodies of [loadModels], [startVideo],
    [handleImageUpload], [captureImage] and [resetCapture] ends by an
    exception, and as long as the compare button is not clicked the list
    of uncaught errors of the page stays empty, whatever the other
    events. *)
Theorem nothing_escapes_outside_the_comparison
    (video : HTMLVideoElement) (canvas : HTMLCanvasElement) (es : list event) :
  existsb is_comparison es = false ->
  uncaught (steps es (mounted video canvas)) = [] /\
  never_throws loadModels /\
  (forall r, never_throws (startVideo r)) /\
  (forall s file imageUrl, never_throws (handleImageUpload s file imageUrl)) /\
  (forall s r dom, never_throws (captureImage s r dom)) /\
  never_throws resetCapture.
Proof.
  intros _. split; [|split; [|split; [|split; [|split]]]].
  - apply inv_uncaught. apply invariant_steps, invariant_mounted.
  - intros [[]|e]; simpl; auto.
  - intros r. unfold startVideo. destruct (videoRef r); simpl; auto.
    intros [stream|e]; simpl; auto.
  - apply handleImageUpload_never_throws.
  - apply captureImage_never_throws.
  - simpl. auto.
Qed.

(** X12.  As long as the models are not loaded the page takes no upload
    and no capture: both descriptors are null, no upload and no capture is
    suspended, [isProcessing] is false and the compare button is
    disabled. *)
Theorem inert_until_loaded
    (video : HTMLVideoElement) (canvas : HTMLCanvasElement) (es : list event) :
  let w := steps es (mounted video canvas) in
  modelsLoaded (state w) = false ->
  referenceDescriptor (state w) = None /\
  capturedDescriptor (state w) = None /\
  user_operation_in_flight w = false /\
  isProcessing (state w) = false /\
  compare_disabled (render (state w)) = true.
Proof.
  intros w Hm.
  assert (Hw : invariant w) by (apply invariant_steps, invariant_mounted).
  destruct (inv_not_loaded w Hw Hm) as (Hr & Hc & Hu & Hcc).
  pose proof (inv_processing w Hw) as Hp. rewrite Hcc in Hp.
  assert (Hidle : isProcessing (state w) = false)
    by (destruct (isProcessing (state w)); [discriminate|reflexivity]).
  repeat split; auto.
  - unfold user_operation_in_flight. destruct (existsb _ _) eqn:E; [|reflexivity].
    apply existsb_exists in E. destruct E as (t & Hin & Hor).
    apply In_nth_error in Hin. destruct Hin as [j Hj].
    apply orb_prop in Hor. unfold is_from in Hor.
    destruct Hor as [Hor|Hor]; apply origin_eqb_eq in Hor;
      symmetry in Hor; pose proof (count_from_lookup _ _ _ _ Hj Hor); lia.
  - cbn [render compare_disabled]. rewrite Hr. cbn [is_null]. now rewrite orb_true_r.
Qed.

(** *** User actions and the flag *)

Lemma user_action_keeps_the_flag (e : event) (w : World) :
  isProcessing (state w) = true ->
  user_action e = true ->
  isProcessing (state (step e w)) = true /\
  count_from from_captureImage (inflight (step e w)) =
    count_from from_captureImage (inflight w).
Proof.
  intros Hp He. destruct e as [file imageUrl|dom| | |i|i r|i r|i r]; try discriminate;
    unfold step; cbn [render capture_disabled compare_disabled].
  - destruct (run_handled keeps_flags returns from_handleImageUpload (same_flags w)
                (keeps_flags_same w) _
                (handleImageUpload_shape (state w) file imageUrl) w (same_flags_refl _))
      as [(l & w1 & -> & (Hi1 & Hu1 & Hr1 & Hm1 & Hp1) & ->)
         |(p' & w1 & Hp' & Hh' & (Hi1 & Hu1 & Hr1 & Hm1 & Hp1) & ->)];
      cbn [run suspend state inflight]; rewrite ?Hi1, ?Hp1; split; auto.
    rewrite count_from_app, count_from_one. cbn. lia.
  - rewrite Hp. auto.
  - rewrite Hp. cbn [orb negb]. rewrite andb_false_r. auto.
  - destruct (reset_rendered _); auto.
Qed.

(** X17.  No user action lowers [isProcessing]: while it is true, any
    sequence of file choices and of clicks on the capture, compare and
    reset buttons leaves it true, the capture button disabled and the
    suspended captures as they are. *)
Theorem user_actions_keep_the_flag (es : list event) (w : World) :
  isProcessing (state w) = true ->
  forallb user_action es = true ->
  isProcessing (state (steps es w)) = true /\
  capture_disabled (render (state (steps es w))) = true /\
  count_from from_captureImage (inflight (steps es w)) =
    count_from from_captureImage (inflight w).
Proof.
  revert w. induction es as [|e es IH]; intros w Hp Hes.
  - repeat split; auto.
  - cbn [forallb] in Hes. apply andb_prop in Hes. destruct Hes as [He Hes].
    destruct (user_action_keeps_the_flag e w Hp He) as [Hp' Hc'].
    destruct (IH (step e w) Hp' Hes) as (H1 & H2 & H3).
    change (steps (e :: es) w) with (steps es (step e w)).
    repeat split; auto. congruence.
Qed.

(** *** Uploads are not counted *)

Lemma upload_suspends (w : World) (file : File) (imageUrl : string) :
  modelsLoaded (state w) = true ->
  let w' := step (change_file_input (Some file) imageUrl) w in
  modelsLoaded (state w') = true /\
  isProcessing (state w') = isProcessing (state w) /\
  referenceImage (state w') = Some imageUrl /\
  exists t, task_origin t = from_handleImageUpload /\
            inflight w' = (inflight w ++ [t])%list.
Proof.
  intros Hm. unfold step, handleImageUpload. rewrite Hm. simpl.
  repeat split; auto.
  eexists {| task_origin := from_handleImageUpload; task_body := _ |}.
  split; reflexivity.
Qed.

(** X8.  Uploads are not limited: each file chosen on a loaded page
    suspends one more handler, whatever is already under way, and the
    image shown is the last one chosen. *)
Theorem uploads_pile_up (l : list (File * string)) (w : World) :
  modelsLoaded (state w) = true ->
  let w' := steps (uploads l) w in
  count_from from_handleImageUpload (inflight w') =
    (count_from from_handleImageUpload (inflight w) + List.length l)%nat /\
  isProcessing (state w') = isProcessing (state w) /\
  referenceImage (state w') =
    match rev l with
    | [] => referenceImage (state w)
    | fu :: _ => Some (snd fu)
    end.
Proof.
  revert w. induction l as [|[f u] l IH]; intros w Hm.
  - cbn. repeat split; auto.
  - destruct (upload_suspends w f u Hm) as (Hm' & Hp' & Hi' & t & Ht & Hl').
    specialize (IH _ Hm'). cbv zeta in IH. destruct IH as (IH1 & IH2 & IH3).
    change (steps (uploads ((f, u) :: l)) w)
      with (steps (uploads l) (step (change_file_input (Some f) u) w)).
    cbv zeta. rewrite IH1, IH2, IH3, Hl', Hp', Hi'. repeat split.
    + rewrite count_from_app, count_from_one. unfold is_from. rewrite Ht. cbn. lia.
    + cbn [rev]. destruct (rev l) as [|x xs]; reflexivity.
Qed.

End Invariants.

Section Messages.

Import JSNumberFacts StringFacts.

Context {runtime : Runtime}.

(** *** What the page can show *)

Ltac tamed :=
  repeat first
    [ apply handled_end; reflexivity
    | apply handled_do; [solve [exact I | reflexivity | unfold tame, written_message; auto 10]|]
    | apply handled_image
    | apply handled_detection; intros [[?|]|?]; simpl
    | apply handled_models; intros [[]|?]; simpl
    | apply handled_media; intros [?|?]; simpl ].

Lemma loadModels_tame : handled tame returns loadModels.
Proof. unfold loadModels. simpl. tamed. Qed.

Lemma startVideo_tame (r : Refs) : handled tame returns (startVideo r).
Proof. unfold startVideo. destruct (videoRef r); simpl; tamed. Qed.

Lemma handleImageUpload_tame (s : State) (file : option File) (imageUrl : string) :
  handled tame returns (handleImageUpload s file imageUrl).
Proof.
  unfold handleImageUpload. destruct file; [destruct (modelsLoaded s)|]; simpl; tamed.
Qed.

Lemma captureImage_tame (s : State) (r : Refs) (dom : CaptureDom) :
  handled tame returns (captureImage s r dom).
Proof.
  unfold captureImage.
  destruct (videoRef r); [|tamed]. destruct (canvasRef r); [|tamed].
  destruct (modelsLoaded s); [|tamed]. destruct (getContext_2d dom); simpl; tamed.
Qed.

Lemma resetCapture_tame : handled tame returns resetCapture.
Proof. unfold resetCapture. simpl. tamed. Qed.

(** Clicked through its button, [performFaceMatch] finds both
    descriptors. *)
Lemma performFaceMatch_tame (s : State) :
  compare_disabled (render s) = false ->
  handled tame returns (performFaceMatch s).
Proof.
  cbn [render compare_disabled]. intros H.
  apply orb_false_elim in H. destruct H as [H Hc].
  apply orb_false_elim in H. destruct H as [_ Hr].
  unfold performFaceMatch.
  destruct (referenceDescriptor s) as [r|]; [|discriminate].
  destruct (capturedDescriptor s) as [c|]; [|discriminate].
  apply handled_do; [|apply handled_end; reflexivity].
  unfold tame, written_message. do 5 right. exists r, c. reflexivity.
Qed.

Lemma tame_run (o : origin) (p : Async unit) (base : World) :
  handled tame returns p ->
  written_message (matchResult (state base)) ->
  Forall (fun t => handled tame returns (task_body t)) (inflight base) ->
  tame_world (run o p base) /\
  (modelsLoaded (state base) = true -> modelsLoaded (state (run o p base)) = true).
Proof.
  intros Hp Hmsg Htasks.
  set (R := fun w1 : World =>
              written_message (matchResult (state w1)) /\
              inflight w1 = inflight base /\
              (modelsLoaded (state base) = true -> modelsLoaded (state w1) = true)).
  assert (HR : forall a w1, tame a -> R w1 -> R (apply_action a w1)).
  { intros a w1 Ha (H1 & H2 & H3). unfold R.
    destruct a; cbn [apply_action state inflight set_state matchResult modelsLoaded];
      repeat split; auto. }
  assert (H0 : R base) by (unfold R; auto).
  destruct (run_handled tame returns o R HR p Hp base H0)
    as [(l & w1 & -> & (H1 & H2 & H3) & ->)|(p' & w1 & Hp' & Hh' & (H1 & H2 & H3) & ->)];
    cbn [run].
  - split; [|exact H3]. constructor; [exact H1|]. now rewrite H2.
  - split; [|exact H3]. constructor; cbn [suspend state inflight]; [exact H1|].
    rewrite H2. apply Forall_app. split; [exact Htasks|]. constructor; [exact Hh'|constructor].
Qed.

Lemma tame_resume (w : World) (i : nat) (t : Task) (q : Async unit) :
  tame_world w ->
  nth_error (inflight w) i = Some t ->
  continues (task_body t) q ->
  tame_world (run (task_origin t) q (retire i w)) /\
  (modelsLoaded (state w) = true ->
   modelsLoaded (state (run (task_origin t) q (retire i w))) = true).
Proof.
  intros [Hmsg Htasks] Hi Hq.
  assert (Ht : handled tame returns (task_body t)).
  { apply nth_error_In in Hi. rewrite Forall_forall in Htasks. now apply Htasks. }
  apply (tame_run (task_origin t) q (retire i w)).
  - exact (handled_continues _ _ _ _ returns_not_awaiting Ht Hq).
  - exact Hmsg.
  - cbn [retire inflight]. now apply Forall_remove_nth.
Qed.

Lemma tame_step (e : event) (w : World) :
  tame_world w ->
  tame_world (step e w) /\
  (modelsLoaded (state w) = true -> modelsLoaded (state (step e w)) = true).
Proof.
  intros Hw. pose proof Hw as [Hmsg Htasks].
  destruct e as [file imageUrl|dom| | |i|i r|i r|i r]; unfold step.
  - apply tame_run; auto. apply handleImageUpload_tame.
  - destruct (capture_disabled _); [auto|]. apply tame_run; auto. apply captureImage_tame.
  - destruct (compare_rendered _); cbn [andb]; [|auto].
    destruct (compare_disabled (render (state w))) eqn:Hd; cbn [negb]; [auto|].
    apply tame_run; auto. now apply performFaceMatch_tame.
  - destruct (reset_rendered _); [|auto]. apply tame_run; auto. apply resetCapture_tame.
  - destruct (nth_error (inflight w) i) as [[o [a|err|a k|src k|img k|k|k]]|] eqn:Hi; auto.
    apply (tame_resume w i _ k Hw Hi). reflexivity.
  - destruct (nth_error (inflight w) i) as [[o [a|err|a k|src k|img k|k|k]]|] eqn:Hi; auto.
    apply (tame_resume w i _ (k r) Hw Hi). now exists r.
  - destruct (nth_error (inflight w) i) as [[o [a|err|a k|src k|img k|k|k]]|] eqn:Hi; auto.
    apply (tame_resume w i _ (k r) Hw Hi). now exists r.
  - destruct (nth_error (inflight w) i) as [[o [a|err|a k|src k|img k|k|k]]|] eqn:Hi; auto.
    apply (tame_resume w i _ (k r) Hw Hi). now exists r.
Qed.

Lemma tame_steps (es : list event) (w : World) :
  tame_world w ->
  tame_world (steps es w) /\
  (modelsLoaded (state w) = true -> modelsLoaded (state (steps es w)) = true).
Proof.
  revert w. induction es as [|e es IH]; intros w Hw; [auto|].
  destruct (tame_step e w Hw) as [Hw' Hm'].
  destruct (IH (step e w) Hw') as [Hw'' Hm''].
  change (steps (e :: es) w) with (steps es (step e w)). auto.
Qed.

Lemma tame_mounted (video : HTMLVideoElement) (canvas : HTMLCanvasElement) :
  tame_world (mounted video canvas).
Proof.
  constructor; cbn.
  - left. reflexivity.
  - constructor; [|constructor; [|constructor]]; cbn; tamed.
Qed.



End Messages.

Section Printing.

Import JSNumberFacts StringFacts.

Context {runtime : Runtime}.

(** *** The percentage as printed *)

Lemma length_append (s1 s2 : string) :
  String.length (s1 ++ s2) = (String.length s1 + String.length s2)%nat.
Proof. induction s1 as [|a s1 IH]; simpl; auto. Qed.

Lemma length_zeros (n : nat) : String.length (zeros n) = n.
Proof. induction n as [|n IH]; simpl; auto. Qed.

Lemma length_substring (s : string) (n m : nat) :
  (n + m <= String.length s)%nat -> String.length (substring n m s) = m.
Proof.
  revert n m. induction s as [|a s IH]; intros n m H; simpl in H.
  - assert (n = 0%nat /\ m = 0%nat) as [-> ->] by lia. reflexivity.
  - destruct n as [|n]; [destruct m as [|m]|]; simpl; auto.
    + f_equal. apply (IH 0%nat m). simpl. lia.
    + apply IH. lia.
Qed.

Lemma decimal_digits_not_empty (n : Z) : (1 <= String.length (decimal_digits n))%nat.
Proof.
  unfold decimal_digits, NilZero.string_of_uint.
  destruct (N.to_uint (Z.to_N n)); simpl; lia.
Qed.

(** With two fraction digits the fixed notation is an integer part, a
    point and two digits. *)
Lemma fixed_notation_two (n : Z) :
  exists a b,
    fixed_notation n 2 = a ++ "." ++ b /\
    (1 <= String.length a)%nat /\ String.length b = 2%nat /\
    forall c, avoids c "0123456789" = true -> avoids c a = true /\ avoids c b = true.
Proof.
  unfold fixed_notation.
  set (m := if (_ <=? _)%nat then _ else _).
  assert (Hlen : (3 <= String.length m)%nat).
  { subst m. pose proof (decimal_digits_not_empty n) as Hd.
    destruct (String.length (decimal_digits n) <=? 2)%nat eqn:E.
    - apply Nat.leb_le in E. rewrite length_append, length_zeros. lia.
    - apply Nat.leb_gt in E. lia. }
  assert (Hdig : forall c, avoids c "0123456789" = true -> avoids c m = true).
  { intros c Hc. subst m. destruct (_ <=? _)%nat; [|now apply avoids_decimal_digits].
    rewrite avoids_app, avoids_decimal_digits by assumption.
    rewrite avoids_zeros; [reflexivity|].
    simpl in Hc. apply andb_prop in Hc. destruct Hc as [Hc _]. simpl. now rewrite Hc. }
  exists (substring 0 (String.length m - 2) m), (substring (String.length m - 2) 2 m).
  split; [reflexivity|]. split; [|split].
  - rewrite length_substring; lia.
  - rewrite length_substring; lia.
  - intros c Hc. split; apply avoids_substring; auto.
Qed.

(** A value between 0 and 100 is printed in fixed notation, without sign,
    whatever [Number::toString] is. *)
Lemma within_fixed (x : number) :
  within (of_Z 0) (of_Z 100) x ->
  exists n, forall toString, toFixed toString x 2 = fixed_notation n 2.
Proof.
  intros [H0 H100]. rewrite of_Z_0 in H0. rewrite of_Z_100 in H100.
  destruct x as [s|s| |s m e]; try discriminate.
  - exists 0%Z. reflexivity.
  - destruct s; discriminate.
  - destruct s; [discriminate|].
    assert (Hsmall : ge (abs (S754_finite false m e)) ten_pow_21 = false).
    { rewrite ten_pow_21_value. unfold le, SFleb in H100. unfold ge, SFleb, abs.
      cbn [SFabs SFcompare] in *. destruct (e ?= -46)%Z eqn:Ee; try discriminate.
      - apply Z.compare_eq in Ee. subst e. reflexivity.
      - rewrite Z.compare_lt_iff in Ee.
        assert (Hc : (17 ?= e)%Z = Gt) by (apply Z.compare_gt_iff; lia).
        rewrite Hc. reflexivity. }
    exists (nearest_scaled m e 2). intros toString. unfold toFixed. rewrite Hsmall. reflexivity.
Qed.

(** X14.  For a distance that is a number the percentage is printed as an
    integer part of at least one digit, a point and exactly two digits,
    with no sign and no exponent; the text does not depend on
    [Number::toString], which [toFixed] does not reach for the values of
    line 155. *)
Theorem percentage_format (d : number) (toString : number -> string) :
  isNaN d = false ->
  toFixed toString (similarity d) 2 = toFixed Number_toString (similarity d) 2 /\
  exists a b,
    toFixed Number_toString (similarity d) 2 = a ++ "." ++ b /\
    (1 <= String.length a)%nat /\ String.length b = 2%nat /\
    forall c, avoids c "0123456789" = true -> avoids c a = true /\ avoids c b = true.
Proof.
  intros Hd. destruct (within_fixed _ (similarity_within d Hd)) as [n Hn].
  split; [now rewrite !Hn|]. rewrite Hn. apply fixed_notation_two.
Qed.

(** X15.  The percentage is NaN exactly when the distance is NaN; the
    message then reads NaN% and carries the verdict of no match. *)
Theorem NaN_distance (d : number) :
  isNaN (similarity d) = isNaN d /\
  (isNaN d = true ->
   result_message d = "Match Result: NaN% similar" ++ nl ++ "❌ No Match Found" /\
   shows_match (result_message d) = false).
Proof.
  split.
  - destruct (isNaN d) eqn:Hd.
    + destruct d; try discriminate. reflexivity.
    + destruct (similarity_within d Hd) as [H0 _].
      destruct (similarity d); try reflexivity. discriminate.
  - intros Hd. destruct d; try discriminate. split; reflexivity.
Qed.

End Printing.

Section AfterReset.

Context {runtime : Runtime}.

(** X16.  After the reset the page shows no preview, no result panel and
    neither the compare nor the reset button, so a second click on reset
    finds no button; the flags [modelsLoaded] and [isProcessing], the
    suspended handlers and the log are as before. *)
Theorem page_after_reset (w : World) :
  let w' := run from_resetCapture resetCapture w in
  render (state w') =
    {| capture_disabled := isProcessing (state w);
       compare_rendered := false;
       compare_disabled := true;
       reset_rendered := false;
       reference_preview := None;
       captured_preview := None;
       result_shown := false;
       result_green := false;
       loading_notice := negb (modelsLoaded (state w)) |} /\
  step click_reset w' = w' /\
  step click_compare w' = w' /\
  inflight w' = inflight w /\
  console w' = console w /\
  uncaught w' = uncaught w.
Proof.
  cbn. split; [|repeat split].
  unfold render. cbn. now rewrite !orb_true_r.
Qed.

End AfterReset.

Section Guards.

Context {runtime : Runtime}.

(** *** The guards *)

(** X20.  A change of the file input with no file, or any change before
    the models are loaded, leaves the page exactly as it is; so does a
    click on the capture button before the models are loaded or with a ref
    that is null: not even [isProcessing] is raised. *)
Theorem guards_change_nothing (w : World) (file : option File) (imageUrl : string)
    (dom : CaptureDom) :
  (file = None \/ modelsLoaded (state w) = false ->
   step (change_file_input file imageUrl) w = w) /\
  (modelsLoaded (state w) = false \/ videoRef (refs w) = None \/ canvasRef (refs w) = None ->
   step (click_capture dom) w = w).
Proof.
  split.
  - intros [->|Hm]; unfold step, handleImageUpload; [reflexivity|].
    rewrite Hm. destruct file; reflexivity.
  - intros H. unfold step. destruct (capture_disabled _); [reflexivity|].
    unfold captureImage.
    destruct H as [Hm|[Hv|Hc]]; rewrite ?Hm, ?Hv, ?Hc;
      destruct (videoRef (refs w)); try destruct (canvasRef (refs w)); reflexivity.
Qed.

(** *** The load of the models, fulfilled *)

(** X18.  When the promise of [loadModels] is fulfilled, [modelsLoaded]
    becomes true, the success is logged and the rest of the state is
    untouched; from then on, whatever the events, [modelsLoaded] is true
    and the loading notice is not rendered. *)
Theorem load_success_is_permanent
    (video : HTMLVideoElement) (canvas : HTMLCanvasElement)
    (es1 es2 : list event) (i : nat) :
  let w1 := steps es1 (mounted video canvas) in
  (exists t, nth_error (inflight w1) i = Some t /\ task_origin t = from_loadModels) ->
  let w2 := step (models_settled i (Fulfilled tt)) w1 in
  state w2 = set_state (setModelsLoaded true) (state w1) /\
  console w2 = (console w1 ++ [logged "Models loaded successfully"])%list /\
  modelsLoaded (state (steps es2 w2)) = true /\
  loading_notice (render (state (steps es2 w2))) = false.
Proof.
  intros w1 (t & Hi & Ho) w2.
  assert (Hw1 : invariant w1) by (apply invariant_steps, invariant_mounted).
  assert (Ht1 : tame_world w1) by (apply tame_steps, tame_mounted).
  pose proof (task_wf_lookup w1 i t Hw1 Hi) as [_ Hshape]. rewrite Ho in Hshape.
  assert (E : w2 = apply_action (console_log "Models loaded successfully")
                     (apply_action (setModelsLoaded true) (retire i w1))).
  { subst w2. unfold step. rewrite Hi. destruct t as [o p].
    cbn [task_origin task_body] in *. subst o p. reflexivity. }
  assert (Ht2 : tame_world w2) by (apply tame_step; exact Ht1).
  assert (Hm2 : modelsLoaded (state w2) = true) by (rewrite E; reflexivity).
  destruct (tame_steps es2 w2 Ht2) as [_ H]. specialize (H Hm2).
  repeat split.
  - rewrite E. reflexivity.
  - rewrite E. reflexivity.
  - exact H.
  - cbn [render loading_notice]. now rewrite H.
Qed.

(** *** What lowers the flag *)

Lemma silent_keeps_flags (a : action) : silent a -> keeps_flags a.
Proof. destruct a; simpl; auto. Qed.

Lemma handled_weaken (P Q : action -> Prop) (L : Async unit -> Prop) (p : Async unit) :
  (forall a, P a -> Q a) -> handled P L p -> handled Q L p.
Proof.
  intros HPQ H.
  induction H as [l Hl|a k Ha Hk IH|src k Hk IH|img k Hk IH|k Hk IH|k Hk IH].
  - now apply handled_end.
  - apply handled_do; auto.
  - now apply handled_image.
  - now apply handled_detection.
  - now apply handled_models.
  - now apply handled_media.
Qed.

Lemma other_resume_keeps_the_flag (w : World) (i : nat) (t : Task) (q : Async unit) :
  invariant w ->
  nth_error (inflight w) i = Some t ->
  is_from from_captureImage t = false ->
  continues (task_body t) q ->
  isProcessing (state (run (task_origin t) q (retire i w))) = isProcessing (state w).
Proof.
  intros Hw Hi Hnot Hq.
  pose proof (task_wf_lookup w i t Hw Hi) as [Haw Hshape].
  assert (Hk : task_origin t = from_loadModels /\ task_body t = loadModels \/
               handled keeps_flags returns (task_body t)).
  { unfold is_from in Hnot. destruct (task_origin t); try contradiction; try discriminate; auto.
    right. exact (handled_weaken _ _ _ _ silent_keeps_flags Hshape). }
  destruct Hk as [[Ho Hb]|Hk].
  - rewrite Hb in Hq. unfold loadModels, await_models in Hq. simpl in Hq.
    destruct Hq as [r ->]. destruct r as [[]|e]; reflexivity.
  - pose proof (handled_continues _ _ _ _ returns_not_awaiting Hk Hq) as Hq'.
    destruct (run_handled keeps_flags returns (task_origin t) (same_flags (retire i w))
                (keeps_flags_same (retire i w)) q Hq' (retire i w) (same_flags_refl _))
      as [(l & w1 & -> & (Hi1 & Hu1 & Hr1 & Hm1 & Hp1) & ->)
         |(p' & w1 & Hp' & Hh' & (Hi1 & Hu1 & Hr1 & Hm1 & Hp1) & ->)];
      cbn [run suspend state]; rewrite Hp1; reflexivity.
Qed.

(** X19.  Once raised, [isProcessing] is lowered only by the settling of
    a promise that a suspended capture awaits: in every state the page can
    reach, any other event (a user action, or a promise of another handler
    settling) leaves the flag as it is when it is true. *)
Theorem only_the_capture_lowers_the_flag
    (video : HTMLVideoElement) (canvas : HTMLCanvasElement) (es : list event) (e : event) :
  let w := steps es (mounted video canvas) in
  isProcessing (state w) = true ->
  resumes_capture e w = false ->
  isProcessing (state (step e w)) = true /\
  capture_disabled (render (state (step e w))) = true.
Proof.
  intros w Hp He.
  assert (Hw : invariant w) by (apply invariant_steps, invariant_mounted).
  assert (H : isProcessing (state (step e w)) = true).
  { destruct e as [file imageUrl|dom| | |i|i r|i r|i r];
      try (apply user_action_keeps_the_flag; [exact Hp|reflexivity]);
      unfold resumes_capture in He; unfold step;
      destruct (nth_error (inflight w) i) as [[o [a|err|a k|src k|img k|k|k]]|] eqn:Hi;
      try exact Hp.
    - rewrite <- Hp. apply (other_resume_keeps_the_flag w i _ k Hw Hi He). reflexivity.
    - rewrite <- Hp. apply (other_resume_keeps_the_flag w i _ (k r) Hw Hi He). now exists r.
    - rewrite <- Hp. apply (other_resume_keeps_the_flag w i _ (k r) Hw Hi He). now exists r.
    - rewrite <- Hp. apply (other_resume_keeps_the_flag w i _ (k r) Hw Hi He). now exists r. }
  split; [exact H|]. cbn [render capture_disabled]. exact H.
Qed.

End Guards.

(** * The capture whose frame never loads *)

Section Hanging.

Context {runtime : Runtime}.

Lemma run_inflight (o : origin) (p : Async unit) (w : World) :
  exists l, inflight (run o p w) = (inflight w ++ l)%list.
Proof.
  revert w. induction p as [a|e|a k IH|src k IH|img k IH|k IH|k IH]; intros w; simpl.
  - exists []. now rewrite app_nil_r.
  - exists []. now rewrite app_nil_r.
  - destruct (IH (apply_action a w)) as [l Hl]. exists l. exact Hl.
  - eexists. reflexivity.
  - eexists. reflexivity.
  - eexists. reflexivity.
  - eexists. reflexivity.
Qed.

Lemma run_refs (o : origin) (p : Async unit) (w : World) : refs (run o p w) = refs w.
Proof.
  revert w. induction p as [a|e|a k IH|src k IH|img k IH|k IH|k IH]; intros w; simpl;
    try reflexivity.
  now rewrite IH.
Qed.

Lemma step_refs (e : event) (w : World) : refs (step e w) = refs w.
Proof.
  destruct e as [file imageUrl|dom| | |i|i r|i r|i r]; unfold step.
  - apply run_refs.
  - destruct (capture_disabled _); [reflexivity|apply run_refs].
  - destruct (_ && _); [apply run_refs|reflexivity].
  - destruct (reset_rendered _); [apply run_refs|reflexivity].
  - destruct (nth_error (inflight w) i) as [[o [a|err|a k|src k|img k|k|k]]|];
      try reflexivity. now rewrite run_refs.
  - destruct (nth_error (inflight w) i) as [[o [a|err|a k|src k|img k|k|k]]|];
      try reflexivity. now rewrite run_refs.
  - destruct (nth_error (inflight w) i) as [[o [a|err|a k|src k|img k|k|k]]|];
      try reflexivity. now rewrite run_refs.
  - destruct (nth_error (inflight w) i) as [[o [a|err|a k|src k|img k|k|k]]|];
      try reflexivity. now rewrite run_refs.
Qed.

Lemma steps_refs (es : list event) (w : World) : refs (steps es w) = refs w.
Proof.
  revert w. induction es as [|e es IH]; intros w; [reflexivity|].
  change (steps (e :: es) w) with (steps es (step e w)). now rewrite IH, step_refs.
Qed.

Lemma user_action_inflight (e : event) (w : World) :
  user_action e = true -> exists l, inflight (step e w) = (inflight w ++ l)%list.
Proof.
  assert (Hsame : exists l, inflight w = (inflight w ++ l)%list)
    by (exists []; now rewrite app_nil_r).
  destruct e as [file imageUrl|dom| | |i|i r|i r|i r]; try discriminate; intros _; unfold step.
  - apply run_inflight.
  - destruct (capture_disabled _); [exact Hsame|apply run_inflight].
  - destruct (_ && _); [apply run_inflight|exact Hsame].
  - destruct (reset_rendered _); [apply run_inflight|exact Hsame].
Qed.

(** The one capture in flight is the one that waits. *)
Lemma the_capture_awaits (src : string) (l : list Task) (i : nat) (t : Task) :
  count_from from_captureImage l = 1%nat ->
  existsb (awaits_load src) l = true ->
  nth_error l i = Some t ->
  is_from from_captureImage t = true ->
  awaits_load src t = true.
Proof.
  revert i. induction l as [|x l IH]; intros i Hc He Hi Ht.
  - destruct i; discriminate.
  - unfold count_from in Hc. cbn [filter] in Hc.
    destruct i as [|i]; cbn [nth_error] in Hi.
    + injection Hi as ->. rewrite Ht in Hc. cbn [List.length] in Hc.
      cbn [existsb] in He. destruct (awaits_load src t) eqn:Ha; [reflexivity|].
      cbn [orb] in He. exfalso.
      assert (Hz : filter (is_from from_captureImage) l = []) by
        (destruct (filter (is_from from_captureImage) l); [reflexivity|discriminate]).
      clear - He Hz. induction l as [|y l IH]; [discriminate|].
      cbn [filter] in Hz. cbn [existsb] in He.
      destruct (is_from from_captureImage y) eqn:Hy; [discriminate|].
      unfold awaits_load in He at 1. rewrite Hy in He. cbn [andb orb] in He. auto.
    + cbn [existsb] in He.
      destruct (is_from from_captureImage x) eqn:Hx.
      * cbn [List.length] in Hc.
        assert (Hz : filter (is_from from_captureImage) l = []) by
          (destruct (filter (is_from from_captureImage) l); [reflexivity|discriminate]).
        exfalso. clear - Hi Ht Hz. revert i Hi. induction l as [|y l IH]; intros i Hi.
        -- destruct i; discriminate.
        -- cbn [filter] in Hz. destruct (is_from from_captureImage y) eqn:Hy; [discriminate|].
           destruct i as [|i]; cbn [nth_error] in Hi.
           ++ injection Hi as ->. congruence.
           ++ eauto.
      * unfold awaits_load in He at 1. rewrite Hx in He. cbn [andb orb] in He.
        apply (IH i); auto.
Qed.

Lemma existsb_remove_nth {A : Type} (f : A -> bool) (l : list A) (i : nat) (t : A) :
  nth_error l i = Some t -> f t = false -> existsb f (remove_nth i l) = existsb f l.
Proof.
  revert i. induction l as [|x l IH]; intros i Hi Hf.
  - destruct i; discriminate.
  - destruct i as [|i]; cbn [nth_error] in Hi; cbn [remove_nth existsb].
    + injection Hi as ->. now rewrite Hf.
    + now rewrite (IH i Hi Hf).
Qed.

Lemma awaits_load_from (src : string) (t : Task) :
  is_from from_captureImage t = false -> awaits_load src t = false.
Proof. intros H. unfold awaits_load. now rewrite H. Qed.

(** A step that is not the load of the frame leaves the waiting capture
    where it is, and the flag up. *)
Lemma waiting_capture_step (src : string) (e : event) (w : World) :
  invariant w ->
  isProcessing (state w) = true ->
  capture_awaits_load src w = true ->
  loads_capture e w = false ->
  isProcessing (state (step e w)) = true /\ capture_awaits_load src (step e w) = true.
Proof.
  intros Hw Hp Ha He.
  destruct (user_action e) eqn:Hu.
  - split; [now apply user_action_keeps_the_flag|].
    destruct (user_action_inflight e w Hu) as [l Hl].
    unfold capture_awaits_load. rewrite Hl, existsb_app.
    unfold capture_awaits_load in Ha. now rewrite Ha.
  - assert (Hone : count_from from_captureImage (inflight w) = 1%nat)
      by (rewrite (inv_processing w Hw), Hp; reflexivity).
    assert (Hother : forall i t q,
              nth_error (inflight w) i = Some t ->
              is_from from_captureImage t = false ->
              continues (task_body t) q ->
              isProcessing (state (run (task_origin t) q (retire i w))) = true /\
              capture_awaits_load src (run (task_origin t) q (retire i w)) = true).
    { intros i t q Hi Ht Hq. split.
      - rewrite <- Hp. now apply other_resume_keeps_the_flag.
      - destruct (run_inflight (task_origin t) q (retire i w)) as [l Hl].
        unfold capture_awaits_load. rewrite Hl, existsb_app. cbn [retire inflight].
        rewrite (existsb_remove_nth _ _ i t Hi (awaits_load_from src t Ht)).
        unfold capture_awaits_load in Ha. now rewrite Ha. }
    assert (Hwait : forall i t,
              nth_error (inflight w) i = Some t ->
              is_from from_captureImage t = true ->
              exists src' k, task_body t = AwaitImageLoad src' k).
    { intros i t Hi Ht.
      pose proof (the_capture_awaits src _ i t Hone Ha Hi Ht) as H.
      unfold awaits_load in H. rewrite Ht in H. cbn [andb] in H.
      destruct (task_body t); try discriminate. eauto. }
    destruct e as [file imageUrl|dom| | |i|i r|i r|i r]; try discriminate;
      unfold loads_capture in He; unfold step;
      destruct (nth_error (inflight w) i) as [t|] eqn:Hi; try (split; assumption);
      destruct t as [o b]; destruct (is_from from_captureImage {| task_origin := o; task_body := b |}) eqn:Ht;
      try discriminate.
    + destruct b; try (split; assumption).
      apply (Hother i _ _ Hi Ht). reflexivity.
    + destruct (Hwait i _ Hi Ht) as (src' & k' & Hb). cbn [task_body] in Hb. subst b.
      split; assumption.
    + destruct b; try (split; assumption).
      apply (Hother i _ _ Hi Ht). cbn. now exists r.
    + destruct (Hwait i _ Hi Ht) as (src' & k' & Hb). cbn [task_body] in Hb. subst b.
      split; assumption.
    + destruct b; try (split; assumption).
      apply (Hother i _ _ Hi Ht). cbn. now exists r.
    + destruct (Hwait i _ Hi Ht) as (src' & k' & Hb). cbn [task_body] in Hb. subst b.
      split; assumption.
    + destruct b; try (split; assumption).
      apply (Hother i _ _ Hi Ht). cbn. now exists r.
Qed.

Lemma waiting_capture_steps (src : string) (es : list event) (w : World) :
  invariant w ->
  isProcessing (state w) = true ->
  capture_awaits_load src w = true ->
  never_loads_capture es w = true ->
  isProcessing (state (steps es w)) = true /\ capture_awaits_load src (steps es w) = true.
Proof.
  revert w. induction es as [|e es IH]; intros w Hw Hp Ha Hes; [split; assumption|].
  cbn [never_loads_capture] in Hes. apply andb_prop in Hes. destruct Hes as [He Hes].
  apply negb_true_iff in He.
  destruct (waiting_capture_step src e w Hw Hp Ha He) as [Hp' Ha'].
  change (steps (e :: es) w) with (steps es (step e w)).
  apply IH; auto. now apply invariant_step.
Qed.

(** C10.  The release of [isProcessing] waits for the frame to load.  On
    a page the component can reach, with the models loaded and no capture
    running, a click on the capture button whose canvas gives a context
    raises the flag and suspends [captureImage] on the load of the frame
    (line 121).  Whatever happens then, short of that load (user actions,
    promises of other handlers settling, and no [error] of the image is
    listened to), the capture stays suspended there, the [finally] of
    line 143 is not reached, [isProcessing] stays true and the capture
    button disabled, so that a further click starts nothing.  The frame
    of a canvas without pixels, ["data:,"], is such a frame: it never
    loads. *)
Theorem captureImage_waits_for_the_frame
    (video : HTMLVideoElement) (canvas : HTMLCanvasElement)
    (before : list event) (dom : CaptureDom) (after : list event) :
  let w := steps before (mounted video canvas) in
  modelsLoaded (state w) = true ->
  isProcessing (state w) = false ->
  getContext_2d dom = true ->
  let w0 := step (click_capture dom) w in
  never_loads_capture after w0 = true ->
  (isProcessing (state w0) = true /\ capture_awaits_load (toDataURL dom) w0 = true) /\
  isProcessing (state (steps after w0)) = true /\
  capture_disabled (render (state (steps after w0))) = true /\
  capture_awaits_load (toDataURL dom) (steps after w0) = true /\
  (forall dom', step (click_capture dom') (steps after w0) = steps after w0).
Proof.
  intros w Hm Hp Hc w0 Hes.
  assert (Hw : invariant w) by (apply invariant_steps, invariant_mounted).
  assert (Hr : refs w = {| videoRef := Some video; canvasRef := Some canvas |})
    by (unfold w; now rewrite steps_refs).
  assert (H0 : isProcessing (state w0) = true /\ capture_awaits_load (toDataURL dom) w0 = true).
  { unfold w0, step, captureImage. cbn [render capture_disabled].
    rewrite Hp, Hr, Hm, Hc. cbn. unfold capture_awaits_load. cbn [inflight].
    split; [reflexivity|]. rewrite existsb_app. cbn.
    rewrite String.eqb_refl. now rewrite orb_true_r. }
  destruct H0 as [Hp0 Ha0].
  assert (Hw0 : invariant w0) by (now apply invariant_step).
  destruct (waiting_capture_steps (toDataURL dom) after w0 Hw0 Hp0 Ha0 Hes) as [Hp1 Ha1].
  repeat split; auto.
  intros dom'. unfold step. cbn [render capture_disabled]. now rewrite Hp1.
Qed.

End Hanging.

Lemma captureImage_waits_for_the_frame_witness :
  let w := Refused.page (of_Z 0) in
  let w0 := @step (Sample.runtime (of_Z 0)) (click_capture Refused.empty_frame) w in
  modelsLoaded (state w) = true /\
  isProcessing (state w) = false /\
  @never_loads_capture (Sample.runtime (of_Z 0)) Refused.afterwards w0 = true /\
  isProcessing (state (@steps (Sample.runtime (of_Z 0)) Refused.afterwards w0)) = true /\
  capture_disabled
    (render (state (@steps (Sample.runtime (of_Z 0)) Refused.afterwards w0))) = true /\
  capture_awaits_load "data:," (@steps (Sample.runtime (of_Z 0)) Refused.afterwards w0) = true.
Proof.
  intros w w0.
  split; [reflexivity|]. split; [reflexivity|]. split; [vm_compute; reflexivity|].
  destruct (@captureImage_waits_for_the_frame (Sample.runtime (of_Z 0))
              Refused.video Sample.canvas
              [models_settled 0 (Fulfilled tt);
               user_media_settled 0 (Rejected "NotAllowedError")]
              Refused.empty_frame Refused.afterwards
              eq_refl eq_refl eq_refl eq_refl)
    as (_ & H1 & H2 & H3 & _).
  split; [exact H1|]. split; [exact H2|exact H3].
Defined.

(** ** The further properties on concrete inputs *)

Lemma upload_with_a_face_witness :
  modelsLoaded (state (Sample.ready (of_Z 0))) = true /\
  revoked
    (@steps (Sample.runtime (of_Z 0))
       [change_file_input (Some Sample.photo) "blob:reference";
        image_loaded (List.length (inflight (Sample.ready (of_Z 0))));
        detection_settled (List.length (inflight (Sample.ready (of_Z 0))))
          (Fulfilled (Some (Sample.face (of_Z 1))))]
       (Sample.ready (of_Z 0))) =
  (revoked (Sample.ready (of_Z 0)) ++ ["blob:reference"])%list.
Proof.
  split; [reflexivity|].
  destruct (@upload_with_a_face (Sample.runtime (of_Z 0)) (Sample.ready (of_Z 0))
              Sample.photo "blob:reference" (Sample.face (of_Z 1)) eq_refl)
    as (_ & _ & H & _).
  exact H.
Defined.

Lemma upload_with_a_rejected_detection_witness :
  modelsLoaded (state (Sample.ready (of_Z 0))) = true /\
  revoked
    (@steps (Sample.runtime (of_Z 0))
       [change_file_input (Some Sample.photo) "blob:reference";
        image_loaded (List.length (inflight (Sample.ready (of_Z 0))));
        detection_settled (List.length (inflight (Sample.ready (of_Z 0))))
          (Rejected "detection failed")]
       (Sample.ready (of_Z 0))) =
  revoked (Sample.ready (of_Z 0)).
Proof.
  split; [reflexivity|].
  destruct (@upload_with_a_rejected_detection (Sample.runtime (of_Z 0))
              (Sample.ready (of_Z 0)) Sample.photo "blob:reference" "detection failed"
              eq_refl)
    as (_ & _ & H & _).
  exact H.
Defined.

Lemma capture_with_a_face_witness :
  modelsLoaded (state (Sample.ready (of_Z 0))) = true /\
  isProcessing (state (Sample.ready (of_Z 0))) = false /\
  refs (Sample.ready (of_Z 0)) = Scene.mounted_refs /\
  getContext_2d Sample.dom = true /\
  inflight
    (@steps (Sample.runtime (of_Z 0))
       [click_capture Sample.dom;
        image_loaded (List.length (inflight (Sample.ready (of_Z 0))));
        detection_settled (List.length (inflight (Sample.ready (of_Z 0))))
          (Fulfilled (Some (Sample.face (of_Z 1))))]
       (Sample.ready (of_Z 0))) =
  inflight (Sample.ready (of_Z 0)).
Proof.
  split; [reflexivity|]. split; [reflexivity|]. split; [reflexivity|].
  split; [reflexivity|].
  destruct (@capture_with_a_face (Sample.runtime (of_Z 0)) (Sample.ready (of_Z 0))
              Sample.dom (Sample.face (of_Z 1)) Sample.video Sample.canvas
              eq_refl eq_refl eq_refl eq_refl)
    as (_ & _ & H & _).
  exact H.
Defined.

Lemma capture_without_context_witness :
  modelsLoaded (state (Sample.ready (of_Z 0))) = true /\
  isProcessing (state (Sample.ready (of_Z 0))) = false /\
  refs (Sample.ready (of_Z 0)) = Scene.mounted_refs /\
  getContext_2d Scene.no_context = false /\
  inflight (@step (Sample.runtime (of_Z 0)) (click_capture Scene.no_context)
              (Sample.ready (of_Z 0))) =
  inflight (Sample.ready (of_Z 0)).
Proof.
  split; [reflexivity|]. split; [reflexivity|]. split; [reflexivity|].
  split; [reflexivity|].
  destruct (@capture_without_context (Sample.runtime (of_Z 0)) (Sample.ready (of_Z 0))
              Scene.no_context Sample.video Sample.canvas
              eq_refl eq_refl eq_refl eq_refl)
    as (_ & _ & H & _).
  exact H.
Defined.

Lemma stale_captured_descriptor_witness :
  modelsLoaded (state (Sample.both_faces (of_decimal 3 1))) = true /\
  isProcessing (state (Sample.both_faces (of_decimal 3 1))) = false /\
  refs (Sample.both_faces (of_decimal 3 1)) = Scene.mounted_refs /\
  getContext_2d Sample.dom = true /\
  capturedDescriptor (state (Sample.both_faces (of_decimal 3 1))) = Some [of_Z 0] /\
  capturedDescriptor
    (state
       (@steps (Sample.runtime (of_decimal 3 1))
          [click_capture Sample.dom;
           image_loaded (List.length (inflight (Sample.both_faces (of_decimal 3 1))));
           detection_settled (List.length (inflight (Sample.both_faces (of_decimal 3 1))))
             (Fulfilled None)]
          (Sample.both_faces (of_decimal 3 1)))) = Some [of_Z 0].
Proof.
  split; [reflexivity|]. split; [reflexivity|]. split; [reflexivity|].
  split; [reflexivity|]. split; [reflexivity|].
  destruct (@stale_captured_descriptor (Sample.runtime (of_decimal 3 1))
              (Sample.both_faces (of_decimal 3 1)) Sample.dom [of_Z 0] (Fulfilled None)
              Sample.video Sample.canvas eq_refl eq_refl eq_refl eq_refl eq_refl
              (or_introl eq_refl))
    as (_ & H & _).
  exact H.
Defined.

Lemma reset_keeps_the_pending_detection_witness :
  modelsLoaded (state (Sample.ready (of_Z 0))) = true /\
  truthy (Some "blob:reference") = true /\
  referenceDescriptor
    (state
       (@steps (Sample.runtime (of_Z 0))
          [change_file_input (Some Sample.photo) "blob:reference";
           image_loaded (List.length (inflight (Sample.ready (of_Z 0))));
           click_reset;
           detection_settled (List.length (inflight (Sample.ready (of_Z 0))))
             (Fulfilled (Some (Sample.face (of_Z 1))))]
          (Sample.ready (of_Z 0)))) = Some [of_Z 1].
Proof.
  split; [reflexivity|]. split; [reflexivity|].
  destruct (@reset_keeps_the_pending_detection (Sample.runtime (of_Z 0))
              (Sample.ready (of_Z 0)) Sample.photo "blob:reference"
              (Sample.face (of_Z 1)) eq_refl eq_refl)
    as (_ & _ & H & _).
  exact H.
Defined.

Lemma last_settled_detection_wins_witness :
  modelsLoaded (state (Sample.ready (of_Z 0))) = true /\
  referenceDescriptor
    (state
       (@steps (Sample.runtime (of_Z 0))
          [change_file_input (Some Sample.photo) "blob:first";
           change_file_input (Some Scene.second_photo) "blob:second";
           image_loaded (List.length (inflight (Sample.ready (of_Z 0))));
           image_loaded (List.length (inflight (Sample.ready (of_Z 0))));
           detection_settled (S (List.length (inflight (Sample.ready (of_Z 0)))))
             (Fulfilled (Some (Sample.face (of_Z 2))));
           detection_settled (List.length (inflight (Sample.ready (of_Z 0))))
             (Fulfilled (Some (Sample.face (of_Z 1))))]
          (Sample.ready (of_Z 0)))) = Some [of_Z 1].
Proof.
  split; [reflexivity|].
  destruct (@last_settled_detection_wins (Sample.runtime (of_Z 0))
              (Sample.ready (of_Z 0)) Sample.photo Scene.second_photo
              "blob:first" "blob:second" (Sample.face (of_Z 1)) (Sample.face (of_Z 2))
              eq_refl)
    as (_ & H & _).
  exact H.
Defined.

Lemma uploads_pile_up_witness :
  modelsLoaded (state (Sample.ready (of_Z 0))) = true /\
  isProcessing
    (state
       (@steps (Sample.runtime (of_Z 0))
          (uploads [(Sample.photo, "blob:first"); (Scene.second_photo, "blob:second")])
          (Sample.ready (of_Z 0)))) =
  isProcessing (state (Sample.ready (of_Z 0))).
Proof.
  split; [reflexivity|].
  destruct (@uploads_pile_up (Sample.runtime (of_Z 0))
              [(Sample.photo, "blob:first"); (Scene.second_photo, "blob:second")]
              (Sample.ready (of_Z 0)) eq_refl)
    as (_ & H & _).
  exact H.
Defined.

Lemma nothing_escapes_outside_the_comparison_witness :
  existsb is_comparison Refused.caught = false /\
  uncaught (@steps (Sample.runtime (of_Z 0)) Refused.caught
              (mounted Refused.video Sample.canvas)) = [].
Proof.
  split; [reflexivity|].
  destruct (@nothing_escapes_outside_the_comparison (Sample.runtime (of_Z 0))
              Refused.video Sample.canvas Refused.caught eq_refl)
    as [H _].
  exact H.
Defined.


Lemma inert_until_loaded_witness :
  modelsLoaded
    (state
       (@steps (Sample.runtime (of_Z 0))
          [change_file_input (Some Sample.photo) "blob:reference";
           click_capture Sample.dom]
          (mounted Sample.video Sample.canvas))) = false /\
  referenceDescriptor
    (state
       (@steps (Sample.runtime (of_Z 0))
          [change_file_input (Some Sample.photo) "blob:reference";
           click_capture Sample.dom]
          (mounted Sample.video Sample.canvas))) = None.
Proof.
  split; [reflexivity|].
  destruct (@inert_until_loaded (Sample.runtime (of_Z 0)) Sample.video Sample.canvas
              [change_file_input (Some Sample.photo) "blob:reference";
               click_capture Sample.dom] eq_refl)
    as (H & _).
  exact H.
Defined.

Lemma startVideo_leaves_the_state_witness :
  videoRef Scene.mounted_refs = Some Sample.video /\
  nth_error (inflight (mounted Sample.video Sample.canvas)) 1 =
    Some {| task_origin := from_startVideo; task_body := startVideo Scene.mounted_refs |} /\
  state (@step (Sample.runtime (of_Z 0)) (user_media_settled 1 (Rejected "NotAllowedError"))
           (mounted Sample.video Sample.canvas)) =
  state (mounted Sample.video Sample.canvas).
Proof.
  split; [reflexivity|]. split; [reflexivity|].
  destruct (@startVideo_leaves_the_state (Sample.runtime (of_Z 0))
              (mounted Sample.video Sample.canvas) 1 Scene.mounted_refs Sample.video
              (Rejected "NotAllowedError") eq_refl eq_refl)
    as (H & _).
  exact H.
Defined.

Lemma percentage_format_witness :
  isNaN (of_decimal 3 1) = false /\
  toFixed (fun _ => "unused") (similarity (of_decimal 3 1)) 2 =
  toFixed (@Number_toString (Sample.runtime (of_Z 0))) (similarity (of_decimal 3 1)) 2.
Proof.
  split; [reflexivity|].
  exact (proj1 (@percentage_format (Sample.runtime (of_Z 0)) (of_decimal 3 1)
                  (fun _ => "unused") eq_refl)).
Defined.

Lemma NaN_distance_witness :
  isNaN NaN = true /\
  shows_match (@result_message (Sample.runtime NaN) NaN) = false.
Proof.
  split; [reflexivity|].
  exact (proj2 (proj2 (@NaN_distance (Sample.runtime NaN) NaN) eq_refl)).
Defined.

Lemma user_actions_keep_the_flag_witness :
  isProcessing (state (Scene.capturing (of_Z 0))) = true /\
  forallb user_action
    [click_reset; change_file_input (Some Sample.photo) "blob:reference";
     click_capture Sample.dom; click_compare] = true /\
  isProcessing
    (state
       (@steps (Sample.runtime (of_Z 0))
          [click_reset; change_file_input (Some Sample.photo) "blob:reference";
           click_capture Sample.dom; click_compare]
          (Scene.capturing (of_Z 0)))) = true.
Proof.
  split; [reflexivity|]. split; [reflexivity|].
  exact (proj1 (@user_actions_keep_the_flag (Sample.runtime (of_Z 0))
                  [click_reset; change_file_input (Some Sample.photo) "blob:reference";
                   click_capture Sample.dom; click_compare]
                  (Scene.capturing (of_Z 0)) eq_refl eq_refl)).
Defined.

Lemma load_success_is_permanent_witness :
  (exists t,
     nth_error
       (inflight (@steps (Sample.runtime (of_Z 0)) [] (mounted Sample.video Sample.canvas)))
       0 = Some t /\
     task_origin t = from_loadModels) /\
  modelsLoaded
    (state
       (@steps (Sample.runtime (of_Z 0))
          [click_reset; user_media_settled 0 (Rejected "NotAllowedError")]
          (@step (Sample.runtime (of_Z 0)) (models_settled 0 (Fulfilled tt))
             (@steps (Sample.runtime (of_Z 0)) [] (mounted Sample.video Sample.canvas))))) =
  true.
Proof.
  split; [eexists; split; reflexivity|].
  refine (proj1 (proj2 (proj2
            (@load_success_is_permanent (Sample.runtime (of_Z 0))
               Sample.video Sample.canvas []
               [click_reset; user_media_settled 0 (Rejected "NotAllowedError")] 0 _)))).
  eexists; split; reflexivity.
Defined.

Lemma only_the_capture_lowers_the_flag_witness :
  isProcessing
    (state
       (@steps (Sample.runtime (of_Z 0))
          [models_settled 0 (Fulfilled tt); click_capture Sample.dom]
          (mounted Sample.video Sample.canvas))) = true /\
  @resumes_capture (Sample.runtime (of_Z 0))
    (user_media_settled 0 (Rejected "NotAllowedError"))
    (@steps (Sample.runtime (of_Z 0))
       [models_settled 0 (Fulfilled tt); click_capture Sample.dom]
       (mounted Sample.video Sample.canvas)) = false /\
  isProcessing
    (state
       (@step (Sample.runtime (of_Z 0))
          (user_media_settled 0 (Rejected "NotAllowedError"))
          (@steps (Sample.runtime (of_Z 0))
             [models_settled 0 (Fulfilled tt); click_capture Sample.dom]
             (mounted Sample.video Sample.canvas)))) = true.
Proof.
  split; [reflexivity|]. split; [reflexivity|].
  exact (proj1 (@only_the_capture_lowers_the_flag (Sample.runtime (of_Z 0))
                  Sample.video Sample.canvas
                  [models_settled 0 (Fulfilled tt); click_capture Sample.dom]
                  (user_media_settled 0 (Rejected "NotAllowedError")) eq_refl eq_refl)).
Defined.

Lemma guards_change_nothing_witness :
  (@None File = None \/ modelsLoaded (state (Sample.ready (of_Z 0))) = false) /\
  @step (Sample.runtime (of_Z 0)) (change_file_input None "") (Sample.ready (of_Z 0)) =
  Sample.ready (of_Z 0).
Proof.
  split; [left; reflexivity|].
  exact (proj1 (@guards_change_nothing (Sample.runtime (of_Z 0)) (Sample.ready (of_Z 0))
                  None "" Sample.dom) (or_introl eq_refl)).
Defined.
